(** * A container registry over a directory tree

    Shallow embedding of [internal/registry/registry.go] and of the HTTP
    handlers of [main.go]: path computation, the directory tree the
    handlers read and write, the upload of a layer, the commit of a blob,
    the manifest store and the response headers.

    Go strings are byte strings: names, header values and path segments
    are [string] (a list of 8-bit characters); file contents and request
    bodies are [list byte]. *)

From stdpp Require Import gmap strings list fin_maps sorting.
From Stdlib Require Import Strings.Byte Strings.Ascii NArith ZArith DecimalString.

Open Scope string_scope.

(** ** Strings *)

Module Str.

(** [strings.HasPrefix] and [strings.HasSuffix]. *)
Fixpoint HasPrefix (s p : string) : bool :=
  match p, s with
  | EmptyString, _ => true
  | String a p', String b s' => if decide (a = b) then HasPrefix s' p' else false
  | String _ _, EmptyString => false
  end.

Definition HasSuffix (s suf : string) : bool :=
  HasPrefix (String.rev s) (String.rev suf).


(** Does the byte [c] occur in [s]. *)
Fixpoint contains (c : ascii) (s : string) : bool :=
  match s with
  | EmptyString => false
  | String a s' => if decide (a = c) then true else contains c s'
  end.

(** [strings.Split s sep] for a one-byte separator: never empty, a string
    with [n] separators gives [n+1] pieces. *)
Fixpoint split (sep : ascii) (s : string) : list string :=
  match s with
  | EmptyString => [EmptyString]
  | String a s' =>
      if decide (a = sep) then EmptyString :: split sep s'
      else match split sep s' with
           | [] => [String a EmptyString]
           | w :: ws => String a w :: ws
           end
  end.

(** [strings.Join elems sep]. *)
Fixpoint join (sep : string) (elems : list string) : string :=
  match elems with
  | [] => ""
  | [e] => e
  | e :: es => e ++ sep ++ join sep es
  end.


Definition to_bytes (s : string) : list byte := Stdlib.Strings.String.list_byte_of_string s.
Definition of_bytes (b : list byte) : string := Stdlib.Strings.String.string_of_list_byte b.

End Str.

(** ** Paths: [path/filepath] on a Unix system *)

Module filepath.

Definition Separator : ascii := "/"%char.

(** A path element that names an entry: not empty, not [.], not [..],
    and without separator. *)
Definition plain (c : string) : bool :=
  negb (bool_decide (c = "")) && negb (bool_decide (c = "."))
  && negb (bool_decide (c = "..")) && negb (Str.contains Separator c).

(** One step of the lexical clean-up of [Clean]: the elements kept so
    far are a stack, last element first. An empty element and [.] are
    dropped; [..] removes the element before it, is dropped at the root
    and is kept at the start of a path that is not rooted. *)
Definition clean_step (rooted : bool) (st : list string) (c : string)
  : list string :=
  if bool_decide (c = "") || bool_decide (c = ".") then st
  else if bool_decide (c = "..") then
    match st with
    | x :: st' => if bool_decide (x = "..") then c :: st else st'
    | [] => if rooted then [] else [c]
    end
  else c :: st.

Definition normal (rooted : bool) (cs : list string) : list string :=
  reverse (foldl (clean_step rooted) [] cs).

(** [filepath.Clean]. *)
Definition Clean (path : string) : string :=
  let rooted := Str.HasPrefix path "/" in
  let cs := normal rooted (Str.split Separator path) in
  if rooted then "/" ++ Str.join "/" cs
  else match cs with
       | [] => "."
       | _ => Str.join "/" cs
       end.

(** [filepath.Join]: the elements from the first one that is not empty,
    joined by the separator and cleaned; the empty string when there is
    none. *)
Fixpoint Join (elem : list string) : string :=
  match elem with
  | [] => ""
  | e :: es => if bool_decide (e = "") then Join es
               else Clean (Str.join "/" elem)
  end.

(** [filepath.Ext]: the suffix of the last element of [path] that starts
    at its last dot, empty when that element has none. *)
Fixpoint Ext (path : string) : string :=
  match path with
  | EmptyString => ""
  | String a s' =>
      let e := Ext s' in
      if bool_decide (e = "") then
        if Str.contains Separator s' then ""
        else if decide (a = "."%char) then path else ""
      else e
  end.

End filepath.

(** ** Results of fallible calls *)

Inductive result (E A : Type) : Type :=
  | Ok (a : A)
  | Err (e : E).
Arguments Ok {E A} a.
Arguments Err {E A} e.

#[global] Instance result_bind {E} : MBind (result E) := λ A B k r,
  match r with
  | Ok a => k a
  | Err e => Err e
  end.

#[global] Instance result_ret {E} : MRet (result E) := λ A a, Ok a.

Definition is_Ok {E A} (r : result E A) : bool :=
  match r with Ok _ => true | Err _ => false end.

(** ** The directory tree: package [os] and [ioutil.ReadDir]

    The tree is the one below the working directory of the process, so a
    relative path is resolved from its root. Permissions are not modelled:
    the process owns the tree (the handlers create everything with mode
    0700), and writing to an open file does not fail. *)

Module os.

Inductive errno : Set :=
  | ENOENT | ENOTDIR | EISDIR | ENOTEMPTY | EEXIST | EINVAL | EBUSY.

#[warnings="-register-all"]
Inductive node : Type :=
  | File (data : list byte)
  | Dir (entries : gmap string node).

(** The elements the kernel walks for [path]: empty elements and [.] are
    skipped, [..] goes back to the parent and stays at the root. *)
Definition components (path : string) : list string :=
  filepath.normal true (Str.split filepath.Separator path).

(** The node at the end of a walk. *)
Fixpoint walk (p : list string) (n : node) : result errno node :=
  match p with
  | [] => Ok n
  | c :: p' =>
      match n with
      | File _ => Err ENOTDIR
      | Dir m => match m !! c with
                 | Some n' => walk p' n'
                 | None => Err ENOENT
                 end
      end
  end.

(** Replace the node at the end of a walk by what [f] makes of it. *)
Fixpoint update (p : list string) (f : node → result errno node) (n : node)
  : result errno node :=
  match p with
  | [] => f n
  | c :: p' =>
      match n with
      | File _ => Err ENOTDIR
      | Dir m => match m !! c with
                 | Some n' => n'' ← update p' f n'; Ok (Dir (<[c := n'']> m))
                 | None => Err ENOENT
                 end
      end
  end.

(** The tree with the node at the end of the walk [p] replaced by [x]. *)
Fixpoint put (p : list string) (x : node) (n : node) : node :=
  match p with
  | [] => x
  | c :: p' =>
      match n with
      | File _ => n
      | Dir m => Dir (<[c := put p' x (default (Dir ∅) (m !! c))]> m)
      end
  end.

(** Apply [f] to the entries of a directory node. *)
Definition in_dir (f : gmap string node → result errno (gmap string node))
  (n : node) : result errno node :=
  match n with
  | File _ => Err ENOTDIR
  | Dir m => m' ← f m; Ok (Dir m')
  end.

(** A path as the directory that holds its last element, and that
    element; [None] for the root itself. *)
Fixpoint parent_and_name (p : list string) : option (list string * string) :=
  match p with
  | [] => None
  | [c] => Some ([], c)
  | c :: p' => (λ '(d, x), (c :: d, x)) <$> parent_and_name p'
  end.

Record FileInfo : Type := { Name : string; Size : Z; IsDir : bool }.

(** What [Stat] reports of an entry. The size of a directory depends on
    the file system; 4096 is what ext4 reports. *)
Definition info (name : string) (n : node) : FileInfo :=
  match n with
  | File data => {| Name := name; Size := Z.of_nat (length data); IsDir := false |}
  | Dir _ => {| Name := name; Size := 4096%Z; IsDir := true |}
  end.

(** Each call is given on the elements of its path first, and then on
    the path as the program writes it. *)

(** [os.Stat]. *)
Definition stat (p : list string) (fs : node) : result errno FileInfo :=
  n ← walk p fs;
  Ok (info (default "." (last p)) n).

Definition Stat (path : string) (fs : node) : result errno FileInfo :=
  stat (components path) fs.

(** [os.IsNotExist] of the error of a call. *)
Definition IsNotExist {A} (r : result errno A) : bool :=
  match r with
  | Err ENOENT => true
  | _ => false
  end.

(** [os.MkdirAll]: every missing directory of the path is created; an
    existing directory is left alone; a file on the way is an error,
    found before anything is created. *)
Fixpoint mkdir_all (p : list string) (n : node) : result errno node :=
  match n with
  | File _ => Err ENOTDIR
  | Dir m =>
      match p with
      | [] => Ok n
      | c :: p' =>
          n' ← mkdir_all p' (default (Dir ∅) (m !! c));
          Ok (Dir (<[c := n']> m))
      end
  end.

Definition MkdirAll (path : string) (fs : node) : result errno node :=
  mkdir_all (components path) fs.

(** [os.Create]: the file is created or truncated; its directory has to
    exist, and the path must not name a directory. *)
Definition create (p : list string) (fs : node) : result errno node :=
  match parent_and_name p with
  | None => Err EISDIR
  | Some (d, x) =>
      update d (in_dir (λ m,
        match m !! x with
        | Some (Dir _) => Err EISDIR
        | _ => Ok (<[x := File []]> m)
        end)) fs
  end.

Definition Create (path : string) (fs : node) : result errno node :=
  create (components path) fs.

(** Writing [data] at the end of the open file at [p]. *)
Definition write (p : list string) (data : list byte) (fs : node)
  : result errno node :=
  update p (λ n, match n with
                 | File old => Ok (File (old ++ data)%list)
                 | Dir _ => Err EISDIR
                 end) fs.

Definition append (path : string) (data : list byte) (fs : node) : node :=
  match write (components path) data fs with
  | Ok fs' => fs'
  | Err _ => fs
  end.

(** Dropping and adding an entry, for [Rename] and [Remove]. *)
Definition unlink (p : list string) (fs : node) : result errno node :=
  match parent_and_name p with
  | None => Err EBUSY
  | Some (d, x) => update d (in_dir (λ m, Ok (delete x m))) fs
  end.

Definition link (p : list string) (n : node) (fs : node) : result errno node :=
  match parent_and_name p with
  | None => Err EBUSY
  | Some (d, x) => update d (in_dir (λ m, Ok (<[x := n]> m))) fs
  end.

Fixpoint is_prefix (p q : list string) : bool :=
  match p, q with
  | [], _ => true
  | a :: p', b :: q' => bool_decide (a = b) && is_prefix p' q'
  | _ :: _, [] => false
  end.

(** What rename(2) checks of the node it moves and of what is at the new
    path: a file replaces a file, a directory replaces only an empty
    directory. *)
Definition replaceable (n : node) (target : result errno node)
  : result errno unit :=
  match n, target with
  | _, Err ENOENT => Ok tt
  | _, Err e => Err e
  | File _, Ok (File _) => Ok tt
  | File _, Ok (Dir _) => Err EISDIR
  | Dir _, Ok (File _) => Err ENOTDIR
  | Dir _, Ok (Dir m) => if bool_decide (m = ∅) then Ok tt else Err ENOTEMPTY
  end.

(** [os.Rename], as rename(2): the old path has to exist; renaming a path
    to itself does nothing; a directory cannot move below itself. *)
Definition rename (po pn : list string) (fs : node) : result errno node :=
  n ← walk po fs;
  if bool_decide (po = pn) then Ok fs
  else
    _ ← replaceable n (walk pn fs);
    if is_prefix po pn then Err EINVAL
    else
      fs1 ← unlink po fs;
      link pn n fs1.

Definition Rename (oldpath newpath : string) (fs : node) : result errno node :=
  rename (components oldpath) (components newpath) fs.

(** [os.Remove]: a file, or an empty directory. *)
Definition remove (p : list string) (fs : node) : result errno node :=
  n ← walk p fs;
  match n with
  | Dir m => if bool_decide (m = ∅) then unlink p fs else Err ENOTEMPTY
  | File _ => unlink p fs
  end.

Definition Remove (path : string) (fs : node) : result errno node :=
  remove (components path) fs.

(** [os.Open], and what [io.Copy] gets out of the opened file: the bytes
    of a file; reading an opened directory fails at once, with nothing
    copied. *)
Definition Open (path : string) (fs : node) : result errno node :=
  walk (components path) fs.

Definition contents (n : node) : list byte :=
  match n with
  | File data => data
  | Dir _ => []
  end.

Definition by_name (a b : FileInfo) : Prop := String.le (Name a) (Name b).

#[global] Instance by_name_dec : RelDecision by_name.
Proof. intros a b. unfold by_name. apply _. Defined.

(** [ioutil.ReadDir]: the entries of the directory, sorted by name. *)
Definition list_dir (n : node) : result errno (list FileInfo) :=
  match n with
  | File _ => Err ENOTDIR
  | Dir m => Ok (merge_sort by_name (uncurry info <$> map_to_list m))
  end.

Definition readdir (p : list string) (fs : node) : result errno (list FileInfo) :=
  n ← walk p fs; list_dir n.

Definition ReadDir (dirname : string) (fs : node) : result errno (list FileInfo) :=
  readdir (components dirname) fs.

End os.

(** ** [io.Reader]: a request body *)

Module io.

(** What the successive calls of [Read] on a body give: a chunk of
    bytes, or a failure of the connection. After the last event every
    [Read] returns [io.EOF]. *)
Inductive event : Type :=
  | Data (chunk : list byte)
  | Broken.

Definition Reader : Type := list event.

Inductive status : Set := nil | EOF | ErrUnexpectedEOF.

(** [r.Read(buf)] with [len(buf) = size]: the bytes put at the start of
    [buf], the error, and the reader afterwards. *)
Definition Read (size : nat) (r : Reader) : list byte * status * Reader :=
  match r with
  | [] => ([], EOF, [])
  | Broken :: _ => ([], ErrUnexpectedEOF, r)
  | Data chunk :: r' =>
      if decide (length chunk ≤ size)%nat then (chunk, nil, r')
      else (take size chunk, nil, Data (drop size chunk) :: r')
  end.

(** [io.Copy] out of [r]: everything up to the end of the body or up to
    the first failure, and whether it failed. *)
Fixpoint ReadAll (r : Reader) : list byte * status :=
  match r with
  | [] => ([], nil)
  | Broken :: _ => ([], ErrUnexpectedEOF)
  | Data chunk :: r' => let '(rest, st) := ReadAll r' in ((chunk ++ rest)%list, st)
  end.

(** The bytes of a body that arrives whole. *)
Definition bytes_of (r : Reader) : list byte := (ReadAll r).1.

End io.

(** ** Digests: [github.com/opencontainers/go-digest] *)

Module digest.

Inductive error : Set :=
  | ErrDigestInvalidFormat | ErrDigestUnsupported | ErrDigestInvalidLength.

(** The registered algorithms and the length of their hex encoding. *)
Definition encoded_length (algorithm : string) : option nat :=
  if bool_decide (algorithm = "sha256") then Some 64%nat
  else if bool_decide (algorithm = "sha384") then Some 96%nat
  else if bool_decide (algorithm = "sha512") then Some 128%nat
  else None.

Definition lower_hex (c : ascii) : bool :=
  let n := N_of_ascii c in
  ((48 <=? n) && (n <=? 57) || (97 <=? n) && (n <=? 102))%N.

Fixpoint all_chars (f : ascii → bool) (s : string) : bool :=
  match s with
  | EmptyString => true
  | String a s' => f a && all_chars f s'
  end.

(** [strings.Index s ":"] as the two sides of the first colon. *)
Fixpoint cut_colon (s : string) : option (string * string) :=
  match s with
  | EmptyString => None
  | String a s' =>
      if decide (a = ":"%char) then Some (EmptyString, s')
      else (λ '(l, r), (String a l, r)) <$> cut_colon s'
  end.

(** A [Digest] is the string itself. *)
Definition Digest : Type := string.
Definition String (d : Digest) : string := d.

(** [Digest.Validate]: an algorithm, a colon and the hex encoding of the
    length of that algorithm. For an algorithm that is not registered
    the library answers [ErrDigestInvalidFormat] or
    [ErrDigestUnsupported] by the shape of the string; the handlers do
    not tell them apart, and the second is given here. *)
Definition Validate (s : string) : option error :=
  match cut_colon s with
  | None => Some ErrDigestInvalidFormat
  | Some (algorithm, encoded) =>
      if bool_decide (algorithm = "") || bool_decide (encoded = "")
      then Some ErrDigestInvalidFormat
      else match encoded_length algorithm with
           | None => Some ErrDigestUnsupported
           | Some n =>
               if negb (bool_decide (String.length encoded = n))
               then Some ErrDigestInvalidLength
               else if all_chars lower_hex encoded then None
               else Some ErrDigestInvalidFormat
           end
  end.

(** [digest.Parse]. *)
Definition Parse (s : string) : result error Digest :=
  match Validate s with
  | None => Ok s
  | Some e => Err e
  end.

End digest.

(** ** The manifest: [ocispec.Descriptor] and [Manifest] *)

Module ocispec.

Record Platform : Type := {
  Architecture : string;
  OS : string;
  OSVersion : string;
  OSFeatures : list string;
  Variant : string
}.

Record Descriptor : Type := {
  MediaType : string;
  Digest : digest.Digest;
  Size : Z;
  URLs : list string;
  Annotations : gmap string string;
  Platform_ : option Platform
}.

End ocispec.

(** Manifest schema v2. *)
Record Manifest : Type := {
  SchemaVersion : Z;
  MediaType : string;
  Config : ocispec.Descriptor;
  Layers : list ocispec.Descriptor
}.

(** ** What the libraries outside the repository decide

    [filetype.IsArchive] of [github.com/h2non/filetype] tries its table of
    archive signatures on a buffer; [encoding/json] decodes a body into a
    [Manifest] and encodes a [Manifest] (the encoder ends its output with
    a newline). *)

Class Libraries : Type := {
  IsArchive : list byte → bool;
  json_Decode : list byte → option Manifest;
  json_Encode : Manifest → list byte
}.

(** ** Package [registry] *)

Module registry.

(** BasePath represents base path for this application. *)
Definition BasePath : string := "testdata".

(** PathJoinWithBase joins any number of path elements with base path
    into a single path. *)
Definition PathJoinWithBase (name : string) (p : list string) : string :=
  filepath.Join ([BasePath; name] ++ p)%list.

Section with_libraries.
Context `{Libraries}.

Definition detectExt (buf : list byte) : string :=
  if IsArchive buf then ".tar.gz" else ".json".

(** The buffer of 8192 bytes after a [Read] that put [got] at its
    start. *)
Definition buffer_size : nat := 8192.

Definition buffer_after (got : list byte) : list byte :=
  (got ++ replicate (buffer_size - length got) x00)%list.

(** CreateLayer creates layer a file which will be json or gz
    extension on specified path. The result is the tree, the number
    of bytes copied and the error. *)
Definition CreateLayer (r : io.Reader) (path : string) (fs : os.node)
  : os.node * Z * option (os.errno + io.status) :=
  let '(got, err, r') := io.Read buffer_size r in
  match err with
  | io.ErrUnexpectedEOF => (fs, 0%Z, Some (inr err))
  | _ =>
      let buffer := buffer_after got in
      let filePath := filepath.Join [path; "layer" ++ detectExt buffer] in
      match os.Create filePath fs with
      | Err e => (fs, 0%Z, Some (inl e))
      | Ok fs1 =>
          let '(rest, st) := io.ReadAll r' in
          let copied := (got ++ rest)%list in
          (os.append filePath copied fs1, Z.of_nat (length copied),
           match st with
           | io.nil => None
           | _ => Some (inr st)
           end)
      end
  end.

End with_libraries.

(** The error of [PickupFileinfo]: the one of [ioutil.ReadDir], or the
    [fmt.Errorf] for a directory without file. *)
Inductive pickup_error : Type :=
  | ReadDirError (e : os.errno)
  | NoFileIn (dir : string).

(** PickupFileinfo picks up one file in the specified directory. *)
Definition PickupFileinfo (dir : string) (fs : os.node)
  : result pickup_error os.FileInfo :=
  match os.ReadDir dir fs with
  | Err e => Err (ReadDirError e)
  | Ok fis =>
      match fis with
      | [] => Err (NoFileIn dir)
      | fi :: _ => Ok fi
      end
  end.

(** PredictDockerContentType predicts content type by filename. *)
Definition PredictDockerContentType (filename : string) : string :=
  let ext := filepath.Ext filename in
  if bool_decide (ext = ".json")
  then "application/vnd.docker.distribution.manifest.v2+json"
  else "application/vnd.docker.image.rootfs.diff.tar.gzip".

End registry.

(** ** [net/http]: headers and the response writer *)

Module http.

Definition StatusOK : Z := 200.
Definition StatusCreated : Z := 201.
Definition StatusAccepted : Z := 202.
Definition StatusBadRequest : Z := 400.
Definition StatusNotFound : Z := 404.
Definition StatusInternalServerError : Z := 500.

Definition upper (c : ascii) : ascii :=
  let n := N_of_ascii c in
  if ((97 <=? n) && (n <=? 122))%N then ascii_of_N (n - 32) else c.

Definition lower (c : ascii) : ascii :=
  let n := N_of_ascii c in
  if ((65 <=? n) && (n <=? 90))%N then ascii_of_N (n + 32) else c.

(** [textproto.CanonicalMIMEHeaderKey] on a key of letters, digits and
    hyphens: the first letter and the letter after a hyphen in upper
    case, the others in lower case. *)
Fixpoint canonical (up : bool) (key : string) : string :=
  match key with
  | EmptyString => EmptyString
  | String a key' =>
      String (if up then upper a else lower a)
             (canonical (bool_decide (a = "-"%char)) key')
  end.

Definition CanonicalHeaderKey (key : string) : string := canonical true key.

(** The header map with one value per key, which is all [Header.Set]
    leaves. *)
Definition Header : Type := gmap string string.

Definition Set_ (key value : string) (h : Header) : Header :=
  <[CanonicalHeaderKey key := value]> h.

Definition Get (key : string) (h : Header) : option string :=
  h !! CanonicalHeaderKey key.

(** An [http.ResponseWriter]: the header map of the handler, the status
    line once it has been written together with the headers sent with
    it, and the body written so far. *)
Record ResponseWriter : Type := {
  header : Header;
  wrote : option (Z * Header);
  body : list byte
}.

Definition fresh : ResponseWriter :=
  {| header := ∅; wrote := None; body := [] |}.

Definition SetHeader (key value : string) (w : ResponseWriter) : ResponseWriter :=
  {| header := Set_ key value (header w); wrote := wrote w; body := body w |}.

(** [w.WriteHeader]: the first call sends the status and the headers set
    so far; a later call changes nothing. *)
Definition WriteHeader (code : Z) (w : ResponseWriter) : ResponseWriter :=
  match wrote w with
  | Some _ => w
  | None => {| header := header w; wrote := Some (code, header w); body := body w |}
  end.

(** [w.Write]: sends status 200 first if no status was sent. *)
Definition Write (data : list byte) (w : ResponseWriter) : ResponseWriter :=
  let w' := WriteHeader StatusOK w in
  {| header := header w'; wrote := wrote w'; body := (body w' ++ data)%list |}.

(** What the client receives. [ErrorCode] is the code of the error
    envelope when the body is one. *)
Record Response : Type := {
  StatusCode : Z;
  Headers : Header;
  Body : list byte;
  ErrorCode : option string
}.

(** The response when the handler is done: status 200 if none was
    sent. *)
Definition finish (w : ResponseWriter) : Response :=
  let w' := WriteHeader StatusOK w in
  match wrote w' with
  | Some (code, h) =>
      {| StatusCode := code; Headers := h; Body := body w'; ErrorCode := None |}
  | None =>
      {| StatusCode := StatusOK; Headers := header w'; Body := body w';
         ErrorCode := None |}
  end.

End http.

(** [strconv.FormatInt(n, 10)]. *)
Definition FormatInt (n : Z) : string := NilZero.string_of_int (Z.to_int n).

(** ** Package [errors] of the repository *)

Module errors.

(** Modelled from the spec: the package [internal/errors] is not among
    the sources. The error kinds, their status and their code string are
    the table of the error model. *)
Inductive Code : Set :=
  | BlobUnknown | BlobUploadInvalid | BlobUploadUnknown | DigestInvalid
  | ManifestInvalid | ManifestUnknown | NameInvalid | NameUnknown
  | SizeInvalid | TagInvalid | Unauthorized | Denied | Unsupported.

Definition status_of (c : Code) : Z :=
  match c with
  | BlobUnknown | BlobUploadUnknown | ManifestUnknown | NameUnknown => 404
  | BlobUploadInvalid | DigestInvalid | ManifestInvalid | NameInvalid
  | SizeInvalid | TagInvalid => 400
  | Unauthorized => 401
  | Denied => 403
  | Unsupported => 405
  end.

Definition code_string (c : Code) : string :=
  match c with
  | BlobUnknown => "BLOB_UNKNOWN"
  | BlobUploadInvalid => "BLOB_UPLOAD_INVALID"
  | BlobUploadUnknown => "BLOB_UPLOAD_UNKNOWN"
  | DigestInvalid => "DIGEST_INVALID"
  | ManifestInvalid => "MANIFEST_INVALID"
  | ManifestUnknown => "MANIFEST_UNKNOWN"
  | NameInvalid => "NAME_INVALID"
  | NameUnknown => "NAME_UNKNOWN"
  | SizeInvalid => "SIZE_INVALID"
  | TagInvalid => "TAG_INVALID"
  | Unauthorized => "UNAUTHORIZED"
  | Denied => "DENIED"
  | Unsupported => "UNSUPPORTED"
  end.

(** The causes the handlers meet. *)
Inductive cause : Type :=
  | PathError (e : os.errno)
  | DigestError (e : digest.error)
  | PickupError (e : registry.pickup_error)
  | BodyError (e : io.status)
  | SyntaxError.

(** Modelled from the spec: an error carries a kind, an optional status
    override and a wrapped cause. A cause returned as it is has neither
    kind nor status. *)
Record Error : Type := {
  kind : option Code;
  status : option Z;
  wrapped : cause
}.

Definition plain (c : cause) : Error :=
  {| kind := None; status := None; wrapped := c |}.

Inductive Option : Type :=
  | WithCode (c : Code)
  | WithStatusCode (code : Z).

Definition WithCodeDigestInvalid : Option := WithCode DigestInvalid.
Definition WithCodeBlobUnknown : Option := WithCode BlobUnknown.
Definition WithCodeManifestUnknown : Option := WithCode ManifestUnknown.
Definition WithCodeManifestInvalid : Option := WithCode ManifestInvalid.
Definition WithCodeTagInvalid : Option := WithCode TagInvalid.

Definition apply (e : Error) (o : Option) : Error :=
  match o with
  | WithCode c => {| kind := Some c; status := status e; wrapped := wrapped e |}
  | WithStatusCode n => {| kind := kind e; status := Some n; wrapped := wrapped e |}
  end.

(** Modelled from the spec: [errors.Wrap], the option-style constructors
    being chained field setters. *)
Definition Wrap (c : cause) (opts : list Option) : Error :=
  foldl apply (plain c) opts.

End errors.

(** ** Package [grammar] of the repository *)

Module grammar.

Definition lower_alnum (c : ascii) : bool :=
  let n := N_of_ascii c in
  ((48 <=? n) && (n <=? 57) || (97 <=? n) && (n <=? 122))%N.


Definition hexdigit (c : ascii) : bool :=
  let n := N_of_ascii c in
  ((48 <=? n) && (n <=? 57) || (65 <=? n) && (n <=? 70)
   || (97 <=? n) && (n <=? 102))%N.

Definition separator (c : ascii) : bool :=
  bool_decide (c = "."%char) || bool_decide (c = "_"%char)
  || bool_decide (c = "-"%char).

(** [[a-z0-9]+(?:[._-][a-z0-9]+)*]: [after] tells whether the byte before
    was alphanumeric. *)
Fixpoint component_from (after : bool) (s : string) : bool :=
  match s with
  | EmptyString => after
  | String a s' =>
      if lower_alnum a then component_from true s'
      else separator a && after && component_from false s'
  end.

Definition component (s : string) : bool := component_from false s.

(** Modelled from the spec: the constants of [internal/grammar] are not
    among the sources. A name is lower-case components separated by
    slashes. *)
Definition Name (s : string) : bool :=
  forallb component (Str.split "/"%char s).


(** Modelled from the spec: an algorithm that is a known hash name, a
    colon, and hex digits. *)
Definition Digest (s : string) : bool :=
  match digest.cut_colon s with
  | None => false
  | Some (algorithm, encoded) =>
      bool_decide (is_Some (digest.encoded_length algorithm))
      && negb (bool_decide (encoded = ""))
      && digest.all_chars hexdigit encoded
  end.



End grammar.

(** ** The router: [github.com/Code-Hex/go-router-simple] *)

Module router.






End router.

(** ** Package [main]: the handlers *)

Inductive method : Set := GET | HEAD | POST | PATCH | PUT | DELETE.

#[global] Instance method_eq_dec : EqDecision method.
Proof. solve_decision. Defined.


(** What running a handler gives: the tree, the response writer and the
    returned error. *)
Record outcome : Type := {
  tree : os.node;
  writer : http.ResponseWriter;
  failure : option errors.Error
}.

Definition done (fs : os.node) (w : http.ResponseWriter) : outcome :=
  {| tree := fs; writer := w; failure := None |}.

Definition failed (fs : os.node) (w : http.ResponseWriter) (e : errors.Error)
  : outcome :=
  {| tree := fs; writer := w; failure := Some e |}.

(** A call whose error is dropped: [os.MkdirAll(...)] and
    [os.Remove(...)] as statements. *)
Definition ignoring (r : result os.errno os.node) (fs : os.node) : os.node :=
  match r with
  | Ok fs' => fs'
  | Err _ => fs
  end.

Definition api_version (w : http.ResponseWriter) : http.ResponseWriter :=
  http.SetHeader "X-Content-Type-Options" "nosniff"
    (http.SetHeader "Docker-Distribution-Api-Version" "registry/2.0" w).


(** PullingBlobs to pull a blob. *)
Definition PullingBlobs (name dq : string) (fs : os.node) : outcome :=
  let w := http.fresh in
  match digest.Parse dq with
  | Err err =>
      failed fs w (errors.Wrap (errors.DigestError err) [errors.WithCodeDigestInvalid])
  | Ok dgst =>
      let dir := registry.PathJoinWithBase name [digest.String dgst] in
      if os.IsNotExist (os.Stat dir fs) then
        failed fs w (errors.Wrap (errors.PathError os.ENOENT) [errors.WithCodeBlobUnknown])
      else
          match registry.PickupFileinfo dir fs with
          | Err err => failed fs w (errors.plain (errors.PickupError err))
          | Ok fi =>
              let filename := os.Name fi in
              let w :=
                if Str.HasSuffix filename ".json" then
                  http.SetHeader "content-type" "application/octet-stream"
                    (api_version w)
                else
                  http.SetHeader "content-type" "application/octet-stream"
                    (http.SetHeader "accept-ranges" "bytes" w) in
              let path := filepath.Join [dir; filename] in
              match os.Open path fs with
              | Err err => failed fs w (errors.plain (errors.PathError err))
              | Ok f => done fs (http.Write (os.contents f) w)
              end
          end
  end.

(** PullingManifests to pull a manifest. *)
Definition PullingManifests (name tag : string) (fs : os.node) : outcome :=
  let w := http.fresh in
  let manifest := registry.PathJoinWithBase name [tag; "manifest.json"] in
  if os.IsNotExist (os.Stat manifest fs) then
    failed fs w (errors.Wrap (errors.PathError os.ENOENT) [errors.WithCodeManifestUnknown])
  else
    match os.Open manifest fs with
    | Err err => failed fs w (errors.plain (errors.PathError err))
    | Ok f =>
        let w := api_version w in
        let w := http.SetHeader "Content-Type"
                   "application/vnd.docker.distribution.manifest.v2+json" w in
        done fs (http.Write (os.contents f) w)
    end.

Definition PushBlob (uuid name : string) (fs : os.node) : outcome :=
  let w := http.fresh in
  let fs := ignoring (os.MkdirAll (registry.PathJoinWithBase name []) fs) fs in
  let location := "/v2/" ++ name ++ "/blobs/uploads/" ++ uuid in
  let w := http.SetHeader "Location" location w in
  let w := api_version w in
  done fs (http.WriteHeader http.StatusAccepted w).

Section with_libraries.
Context `{Libraries}.

Definition PushBlobPatch (name reference : string) (body : io.Reader)
  (fs : os.node) : outcome :=
  let w := http.fresh in
  let path := registry.PathJoinWithBase name [reference] in
  let fs := ignoring (os.MkdirAll path fs) fs in
  match registry.CreateLayer body path fs with
  | (fs, _, Some (inl err)) => failed fs w (errors.plain (errors.PathError err))
  | (fs, _, Some (inr err)) => failed fs w (errors.plain (errors.BodyError err))
  | (fs, size, None) =>
      let location := "/v2/" ++ name ++ "/blobs/uploads/" ++ reference in
      let w := http.SetHeader "Location" location w in
      let w := http.SetHeader "Docker-Upload-UUID" reference w in
      let w := http.SetHeader "Range" ("0-" ++ FormatInt size) w in
      done fs (http.WriteHeader http.StatusAccepted w)
  end.

End with_libraries.

Definition PushBlobPut (name reference query_digest : string) (fs : os.node)
  : outcome :=
  let w := http.fresh in
  match digest.Parse query_digest with
  | Err err =>
      failed fs w (errors.Wrap (errors.DigestError err) [errors.WithCodeDigestInvalid])
  | Ok dgst =>
      let newDir := registry.PathJoinWithBase name [digest.String dgst] in
      let fs := ignoring (os.MkdirAll newDir fs) fs in
      let uuid := reference in
      let oldDir := registry.PathJoinWithBase name [uuid] in
      match registry.PickupFileinfo oldDir fs with
      | Err err => failed fs w (errors.plain (errors.PickupError err))
      | Ok fi =>
          let filename := os.Name fi in
          let oldpath := filepath.Join [oldDir; filename] in
          let newpath := filepath.Join [newDir; filename] in
          match os.Rename oldpath newpath fs with
          | Err err => failed fs w (errors.plain (errors.PathError err))
          | Ok fs =>
              let fs := ignoring (os.Remove oldDir fs) fs in
              done fs (http.WriteHeader http.StatusCreated w)
          end
      end
  end.

Definition PushBlobHead (name dq : string) (fs : os.node) : outcome :=
  let w := http.fresh in
  match digest.Parse dq with
  | Err err =>
      failed fs w (errors.Wrap (errors.DigestError err) [errors.WithCodeDigestInvalid])
  | Ok dgst =>
      let dir := registry.PathJoinWithBase name [digest.String dgst] in
      if os.IsNotExist (os.Stat dir fs) then
        failed fs w (errors.Wrap (errors.PathError os.ENOENT)
                       [errors.WithStatusCode http.StatusNotFound])
      else
          match registry.PickupFileinfo dir fs with
          | Err err => failed fs w (errors.plain (errors.PickupError err))
          | Ok fi =>
              let filename := os.Name fi in
              let size := os.Size fi in
              let ext := filepath.Ext filename in
              let w :=
                if bool_decide (ext = ".json") then
                  http.SetHeader "Content-Type"
                    "application/vnd.docker.distribution.manifest.v2+json" w
                else
                  http.SetHeader "Content-Type"
                    "application/vnd.docker.image.rootfs.diff.tar.gzip" w in
              let w := http.SetHeader "Docker-Content-Digest" (digest.String dgst) w in
              let w := http.SetHeader "Content-Length" (FormatInt size) w in
              let w := api_version w in
              done fs (http.WriteHeader http.StatusAccepted w)
          end
  end.

Section with_libraries.
Context `{Libraries}.

(** The body is taken as it arrives whole; a body that breaks off does
    not decode. *)
Definition PushManifestPut (name tag : string) (body : io.Reader)
  (fs : os.node) : outcome :=
  let w := http.fresh in
  let decoded :=
    match io.ReadAll body with
    | (bytes, io.nil) => json_Decode bytes
    | _ => None
    end in
  match decoded with
  | None => failed fs w (errors.Wrap errors.SyntaxError [errors.WithCodeManifestInvalid])
  | Some m =>
      let path := registry.PathJoinWithBase name [tag] in
      let fs := ignoring (os.MkdirAll path fs) fs in
      let path := filepath.Join [path; "manifest.json"] in
      match os.Create path fs with
      | Err err =>
          failed fs w (errors.Wrap (errors.PathError err) [errors.WithCodeTagInvalid])
      | Ok fs =>
          let fs := os.append path (json_Encode m) fs in
          let w := http.SetHeader "Docker-Content-Digest"
                     (digest.String (ocispec.Digest (Config m))) w in
          done fs (http.WriteHeader http.StatusCreated w)
      end
  end.

End with_libraries.

(** ** Package [main]: routes and the serving of a request *)




(** Modelled from the spec: the adapter [Handler] is not among the
    sources. When the handler returns an error, the status is the
    override of the error, else the status of its kind, else 500, and the
    body is the envelope with the code of the kind, sent as JSON. *)
Definition Handler (o : outcome) : http.Response :=
  match failure o with
  | None => http.finish (writer o)
  | Some e =>
      let code :=
        match errors.status e, errors.kind e with
        | Some n, _ => n
        | None, Some k => errors.status_of k
        | None, None => http.StatusInternalServerError
        end in
      match errors.kind e with
      | Some k =>
          {| http.StatusCode := code;
             http.Headers := http.Set_ "Content-Type" "application/json"
                               (http.header (writer o));
             http.Body := [];
             http.ErrorCode := Some (errors.code_string k) |}
      | None =>
          {| http.StatusCode := code;
             http.Headers := http.header (writer o);
             http.Body := [];
             http.ErrorCode := None |}
      end
  end.



Section with_libraries.
Context `{Libraries}.



End with_libraries.

(** ** Notions for the proofs *)

(** The stack of a clean-up: elements that name entries on top of the
    [..] kept at the start of a path that is not rooted. *)
Definition stack_ok (st : list string) : Prop :=
  ∃ up down, st = (down ++ up)%list ∧ Forall (λ c, c = "..") up
             ∧ Forall (λ c, c ≠ "" ∧ c ≠ "." ∧ c ≠ "..") down.

Definition named (st : list string) : list string :=
  filter (λ c, c ≠ "..") st.

(** The elements of the directory of a repository. *)
Definition repo (name : string) : list string :=
  os.components (registry.PathJoinWithBase name []).

Section with_libraries.
Context `{Libraries}.

(** The name of the layer file that a body gets. *)
Definition layer_name (body : io.Reader) : string :=
  "layer" ++ registry.detectExt
               (registry.buffer_after (io.Read registry.buffer_size body).1.1).

End with_libraries.

(** The headers [PullingBlobs] sends with a file of that name, and the
    ones [PushBlobHead] sends for an entry. *)
Definition blob_headers (filename : string) : http.Header :=
  if Str.HasSuffix filename ".json" then
    http.Set_ "content-type" "application/octet-stream"
      (http.Set_ "X-Content-Type-Options" "nosniff"
         (http.Set_ "Docker-Distribution-Api-Version" "registry/2.0" ∅))
  else
    http.Set_ "content-type" "application/octet-stream"
      (http.Set_ "accept-ranges" "bytes" ∅).

Definition head_headers (dq : string) (fi : os.FileInfo) : http.Header :=
  http.Set_ "X-Content-Type-Options" "nosniff"
    (http.Set_ "Docker-Distribution-Api-Version" "registry/2.0"
       (http.Set_ "Content-Length" (FormatInt (os.Size fi))
          (http.Set_ "Docker-Content-Digest" dq
             (http.Set_ "Content-Type"
                (registry.PredictDockerContentType (os.Name fi)) ∅)))).

(** ** An instance of the libraries and some trees, for the examples *)

(** The gzip matcher of [filetype], one of those [IsArchive] tries. *)
Definition gzip_signature (buf : list byte) : bool :=
  match buf with
  | x1f :: x8b :: x08 :: _ => true
  | _ => false
  end.

(** A codec that keeps the digest of the configuration only; the body is
    that digest. *)
Definition digest_only (d : string) : Manifest :=
  {| SchemaVersion := 2;
     MediaType := "application/vnd.docker.distribution.manifest.v2+json";
     Config := {| ocispec.MediaType := ""; ocispec.Digest := d; ocispec.Size := 0;
                  ocispec.URLs := []; ocispec.Annotations := ∅;
                  ocispec.Platform_ := None |};
     Layers := [] |}.

Definition sample : Libraries :=
  {| IsArchive := gzip_signature;
     json_Decode := λ b, Some (digest_only (Str.of_bytes b));
     json_Encode := λ m, Str.to_bytes (ocispec.Digest (Config m)) |}.

(** Eight bytes that start as a gzip stream, two bodies of JSON, and the
    SHA-256 digest of each. *)
Definition gz_bytes : list byte := [x1f; x8b; x08; x00; x00; x00; x00; x00].
Definition gz_digest : string :=
  "sha256:87bcdd44f7d4d2605074cefe3f0a5e41dfdab2700c027148a4e8273fb1d4284a".

Definition object_bytes : list byte := [x7b; x7d].
Definition object_digest : string :=
  "sha256:44136fa355b3678a1146ad16f7e8649e94fb4fc21fe77e8310c060f61caaff8a".

Definition array_bytes : list byte := [x5b; x5d].

Definition empty_store : os.node := os.Dir ∅.

(** The tree [testdata/myorg/myrepo/<digest>/<file>] with one blob. *)
Definition store_with (dgst file : string) (data : list byte) : os.node :=
  os.Dir {[ "testdata" :=
    os.Dir {[ "myorg" :=
      os.Dir {[ "myrepo" :=
        os.Dir {[ dgst := os.Dir {[ file := os.File data ]} ]} ]} ]} ]}.

(** ** The push of a layer, and two statements of the specification *)

Section with_libraries.
Context `{Libraries}.

(** The tree after [POST], [PATCH] with [body] and [PUT] with the digest
    [dq], in the session [uuid] of the repository [name]. *)
Definition PATCH_of (name uuid : string) (body : io.Reader) (fs : os.node) : outcome :=
  PushBlobPatch name uuid body (tree (PushBlob uuid name fs)).

Definition PUT_of (name uuid dq : string) (body : io.Reader) (fs : os.node) : outcome :=
  PushBlobPut name uuid dq (tree (PATCH_of name uuid body fs)).

Definition pushed (name uuid dq : string) (body : io.Reader) (fs : os.node) : os.node :=
  tree (PUT_of name uuid dq body fs).

(** The push is a successful one in a new session. *)
Definition push_succeeds (name uuid dq : string) (body : io.Reader) (fs : os.node) : Prop :=
  filepath.plain uuid = true ∧ uuid ≠ dq
  ∧ is_Ok (os.Stat (registry.PathJoinWithBase name [uuid]) fs) = false
  ∧ failure (PATCH_of name uuid body fs) = None
  ∧ failure (PUT_of name uuid dq body fs) = None.

(** No blob is stored under the digest: its directory is missing or
    empty. *)
Definition vacant (name dq : string) (fs : os.node) : Prop :=
  os.IsNotExist (os.Stat (registry.PathJoinWithBase name [dq]) fs) = true
  ∨ os.ReadDir (registry.PathJoinWithBase name [dq]) fs = Ok [].

(** The content type that goes with what [detectExt] sees of a body. *)
Definition detected_type (body : io.Reader) : string :=
  if IsArchive (registry.buffer_after (io.Read registry.buffer_size body).1.1)
  then "application/vnd.docker.image.rootfs.diff.tar.gzip"
  else "application/vnd.docker.distribution.manifest.v2+json".

End with_libraries.

(** The first testable property as the specification states it: after
    every successful push the blob is served as it was sent. *)
Definition push_pull_as_stated : Prop :=
  ∀ (L : Libraries) (name uuid dq : string) (body : io.Reader) (fs : os.node),
    push_succeeds name uuid dq body fs →
    let get := Handler (PullingBlobs name dq (pushed name uuid dq body fs)) in
    let head := Handler (PushBlobHead name dq (pushed name uuid dq body fs)) in
    http.Body get = io.bytes_of body
    ∧ http.Get "Content-Length" (http.Headers head)
      = Some (FormatInt (Z.of_nat (length (io.bytes_of body)))).

(** The round trip of the media type as the specification states it:
    [HEAD] and [GET] both serve the detected type. *)
Definition content_type_as_stated : Prop :=
  ∀ (L : Libraries) (name uuid dq : string) (body : io.Reader) (fs : os.node),
    push_succeeds name uuid dq body fs → vacant name dq fs →
    let get := Handler (PullingBlobs name dq (pushed name uuid dq body fs)) in
    let head := Handler (PushBlobHead name dq (pushed name uuid dq body fs)) in
    http.Get "Content-Type" (http.Headers head) = Some (detected_type body)
    ∧ http.Get "Content-Type" (http.Headers get) = Some (detected_type body).

Definition uuid1 : string := "6ba7b810-9dad-11d1-80b4-00c04fd430c8".
Definition uuid2 : string := "6ba7b811-9dad-11d1-80b4-00c04fd430c8".

(** The tree after a client has pushed the JSON body under the digest of
    the gzip bytes, which [PUT] does not check. *)
Definition mislabelled : os.node :=
  pushed (H := sample) "myorg/myrepo" uuid1 gz_digest [io.Data object_bytes] empty_store.

(** ** Sessions and blobs in one directory *)




(** The statement on unknown upload identifiers as the specification
    has it. *)
Definition upload_unknown_as_stated : Prop :=
  ∀ (L : Libraries) (name reference query_digest : string) (body : io.Reader)
    (fs : os.node),
    is_Ok (os.Stat (registry.PathJoinWithBase name [reference]) fs) = false →
    let patch := Handler (PushBlobPatch name reference body fs) in
    let put := Handler (PushBlobPut name reference query_digest fs) in
    (http.StatusCode patch = 404%Z
     ∧ http.ErrorCode patch = Some "BLOB_UPLOAD_UNKNOWN")
    ∧ (http.StatusCode put = 404%Z
       ∧ http.ErrorCode put = Some "BLOB_UPLOAD_UNKNOWN").


(** ** The codec of manifests *)

(** What the decoder gives is a fixed point of encoding and decoding
    again: the encoder writes the canonical form of a decoded manifest. *)
Definition canonical_codec (L : Libraries) : Prop :=
  ∀ (b : list byte) (m : Manifest),
    json_Decode b = Some m → json_Decode (json_Encode m) = Some m.

(** ** The headers of every response, and the digest of a path *)





(** * Properties *)

Example Clean_examples :
  filepath.Clean "testdata/myorg/myrepo//x/../y/." = "testdata/myorg/myrepo/y"
  ∧ filepath.Clean "" = "." ∧ filepath.Clean "../../a" = "../../a"
  ∧ filepath.Clean "/../a/" = "/a" ∧ filepath.Clean "a/.." = ".".
Proof. repeat split; reflexivity. Qed.

Example Ext_examples :
  filepath.Ext "layer.tar.gz" = ".gz" ∧ filepath.Ext "layer.json" = ".json"
  ∧ filepath.Ext "a.b/layer" = "" ∧ filepath.Ext "layer" = ""
  ∧ filepath.Ext "dir/x.json" = ".json".
Proof. repeat split; reflexivity. Qed.

(** ** Splitting and joining *)

Section paths.
Implicit Types (s : string) (cs : list string).

Lemma split_not_nil sep s : Str.split sep s ≠ [].
Proof. induction s as [|a s IH]; simpl; [done|]. case_decide; [done|]. by destruct (Str.split sep s). Qed.

Lemma split_no_sep sep s : Str.contains sep s = false → Str.split sep s = [s].
Proof.
  induction s as [|a s IH]; simpl; [done|].
  case_decide; [done|]. intros Hs. by rewrite IH.
Qed.

Lemma split_app_sep sep s t :
  Str.split sep (s ++ String sep t) = (Str.split sep s ++ Str.split sep t)%list.
Proof.
  induction s as [|a s IH]; simpl.
  - by rewrite decide_True.
  - case_decide; [by rewrite IH|]. rewrite IH.
    destruct (Str.split sep s) eqn:E; [by apply split_not_nil in E|done].
Qed.

Lemma split_pieces sep s c : c ∈ Str.split sep s → Str.contains sep c = false.
Proof.
  revert c. induction s as [|a s IH]; simpl; intros c.
  - by intros ->%list_elem_of_singleton.
  - case_decide.
    + intros [->|?]%elem_of_cons; [done|auto].
    + destruct (Str.split sep s) as [|w ws] eqn:E; [by apply split_not_nil in E|].
      intros [->|?]%elem_of_cons.
      * simpl. rewrite decide_False by done. apply IH. by left.
      * apply IH. by right.
Qed.

Lemma split_join cs :
  cs ≠ [] → Str.split "/"%char (Str.join "/" cs) = cs ≫= Str.split "/"%char.
Proof.
  induction cs as [|c cs IH]; [done|]. intros _.
  destruct cs as [|c' cs].
  - simpl. by rewrite app_nil_r.
  - change (Str.join "/" (c :: c' :: cs)) with (c ++ String "/"%char (Str.join "/" (c' :: cs))).
    rewrite split_app_sep, IH by done. done.
Qed.
End paths.

Section cleaning.
Implicit Types (s c : string) (cs st : list string).

Lemma clean_step_skip r st c : c = "" ∨ c = "." → filepath.clean_step r st c = st.
Proof. intros [-> | ->]; done. Qed.

Lemma clean_step_plain r st c :
  filepath.plain c = true → filepath.clean_step r st c = c :: st.
Proof.
  unfold filepath.plain, filepath.clean_step. intros Hc.
  repeat case_bool_decide; simplify_eq/=; done.
Qed.

Lemma foldl_clean_plain r st cs :
  Forall (λ c, filepath.plain c = true) cs →
  foldl (filepath.clean_step r) st cs = (reverse cs ++ st)%list.
Proof.
  intros Hcs. revert st. induction Hcs as [|c cs Hc _ IH]; intros st; [done|].
  simpl. rewrite clean_step_plain, IH, reverse_cons, <-app_assoc by done. done.
Qed.

Lemma normal_snoc r cs c :
  filepath.plain c = true →
  filepath.normal r (cs ++ [c]) = (filepath.normal r cs ++ [c])%list.
Proof.
  intros Hc. unfold filepath.normal.
  rewrite foldl_app. simpl. rewrite clean_step_plain by done.
  by rewrite reverse_cons.
Qed.



Lemma stack_ok_step r st c :
  stack_ok st → stack_ok (filepath.clean_step r st c).
Proof.
  intros (up & down & -> & Hup & Hdown). unfold filepath.clean_step.
  repeat case_bool_decide; simplify_eq/=; try by (exists up, down).
  - destruct down as [|x down]; simpl.
    + destruct up as [|x up]; simpl.
      * destruct r; [by exists [], []|]. exists [".."], []. repeat split; auto.
      * apply Forall_cons in Hup as [-> Hup]. simpl.
        exists (".." :: ".." :: up), []. repeat split; auto.
    + apply Forall_cons in Hdown as [(?&?&?) Hdown].
      rewrite bool_decide_eq_false_2 by done. by exists up, down.
  - exists up, (c :: down). repeat split; auto.
Qed.

Lemma stack_ok_foldl r st cs :
  stack_ok st → stack_ok (foldl (filepath.clean_step r) st cs).
Proof. revert st. induction cs; simpl; auto using stack_ok_step. Qed.

Lemma named_step r st c :
  stack_ok st →
  named (filepath.clean_step r st c) = filepath.clean_step true (named st) c.
Proof.
  intros (up & down & -> & Hup & Hdown). unfold filepath.clean_step, named.
  repeat case_bool_decide; simplify_eq/=; try done.
  - destruct down as [|x down]; simpl.
    + destruct up as [|x up]; simpl.
      * by destruct r.
      * apply Forall_cons in Hup as [-> Hup]. simpl.
        rewrite !filter_cons_False by naive_solver.
        assert (filter (λ c, c ≠ "..") up = []) as ->; [|done].
        clear -Hup. induction Hup as [|?? -> ? IH]; [done|].
        by rewrite filter_cons_False by naive_solver.
    + apply Forall_cons in Hdown as [(?&?&?) Hdown].
      rewrite filter_cons_True by done.
      by rewrite !bool_decide_eq_false_2 by done.
  - by rewrite filter_cons_True by done.
Qed.

Lemma named_foldl r st cs :
  stack_ok st →
  named (foldl (filepath.clean_step r) st cs)
  = foldl (filepath.clean_step true) (named st) cs.
Proof.
  revert st. induction cs as [|c cs IH]; intros st Hst; simpl; [done|].
  rewrite IH by by apply stack_ok_step. by rewrite named_step.
Qed.

Lemma normal_true_normal r cs :
  filepath.normal true (filepath.normal r cs) = filepath.normal true cs.
Proof.
  unfold filepath.normal.
  pose proof (stack_ok_foldl r [] cs) as Hok.
  pose proof (named_foldl r [] cs) as Hn.
  destruct Hok as (up & down & E & Hup & Hdown).
  { by exists [], []. }
  specialize (Hn ltac:(by exists [], [])).
  change (named []) with (@nil string) in Hn.
  rewrite <-Hn, E. unfold named.
  rewrite reverse_app, foldl_app, filter_app.
  assert (filter (λ c, c ≠ "..") up = []) as ->.
  { clear -Hup. induction Hup as [|?? -> ? IH]; [done|].
    by rewrite filter_cons_False by naive_solver. }
  assert (filter (λ c, c ≠ "..") down = down) as ->.
  { clear -Hdown. induction Hdown as [|?? (?&?&?) ? IH]; [done|].
    rewrite filter_cons_True by done. by f_equal. }
  assert (foldl (filepath.clean_step true) [] (reverse up) = []) as ->.
  { assert (Forall (λ c, c = "..") (reverse up)) as H by by apply Forall_reverse.
    clear -H. induction H as [|?? -> ? IH]; [done|]. done. }
  rewrite app_nil_r.
  assert (∀ st, foldl (filepath.clean_step true) st (reverse down)
                = (down ++ st)%list) as ->; [|by rewrite app_nil_r].
  clear -Hdown. induction Hdown as [|c down (?&?&?) ? IH]; intros st; [done|].
  rewrite reverse_cons, foldl_app, IH. simpl.
  unfold filepath.clean_step. by repeat case_bool_decide; simplify_eq/=.
Qed.
End cleaning.

Section components.
Implicit Types (s c : string) (cs es : list string).

Lemma normal_cons_empty r cs : filepath.normal r ("" :: cs) = filepath.normal r cs.
Proof. done. Qed.

Lemma normal_pieces r cs c : c ∈ filepath.normal r cs → c ∈ cs.
Proof.
  unfold filepath.normal. rewrite elem_of_reverse.
  assert (∀ st, c ∈ foldl (filepath.clean_step r) st cs → c ∈ st ∨ c ∈ cs) as H.
  { induction cs as [|x cs IH]; intros st; simpl; [auto|].
    intros [Hc|Hc]%IH; [|right; by right].
    unfold filepath.clean_step in Hc.
    repeat case_bool_decide; simplify_eq/=; auto.
    - destruct st as [|y st]; [destruct r|case_bool_decide].
      + by apply elem_of_nil in Hc.
      + apply list_elem_of_singleton in Hc as ->. right. by left.
      + apply elem_of_cons in Hc as [->|Hc]; [right; by left|by left].
      + left. by right.
    - apply elem_of_cons in Hc as [->|Hc]; [right; by left|by left]. }
  intros [?%elem_of_nil|?]%H; done.
Qed.

Lemma bind_split_id cs :
  Forall (λ c, Str.contains "/"%char c = false) cs →
  cs ≫= Str.split "/"%char = cs.
Proof.
  induction 1 as [|c cs Hc _ IH]; [done|].
  by rewrite bind_cons, split_no_sep, IH.
Qed.

Lemma components_Clean path :
  os.components (filepath.Clean path) = os.components path.
Proof.
  unfold os.components, filepath.Clean, filepath.Separator.
  set (r := Str.HasPrefix path "/").
  set (cs := filepath.normal r (Str.split "/"%char path)).
  assert (Forall (λ c, Str.contains "/"%char c = false) cs) as Hcs.
  { apply Forall_forall. intros c Hc%normal_pieces. by eapply split_pieces. }
  assert (cs ≠ [] → filepath.normal true (Str.split "/"%char (Str.join "/" cs))
                    = filepath.normal true (Str.split "/"%char path)) as Hjoin.
  { intros Hne. rewrite split_join, bind_split_id by done.
    apply normal_true_normal. }
  assert (cs = [] → filepath.normal true (Str.split "/"%char path) = []) as Hnil.
  { intros E. rewrite <-(normal_true_normal r). fold cs. by rewrite E. }
  destruct r.
  - change ("/" ++ Str.join "/" cs) with ("" ++ String "/"%char (Str.join "/" cs)).
    rewrite split_app_sep. simpl "++"%list. rewrite normal_cons_empty.
    destruct cs as [|c cs'] eqn:E; [by rewrite Hnil|]. by apply Hjoin.
  - destruct cs as [|c cs'] eqn:E; [by rewrite Hnil|]. by apply Hjoin.
Qed.

Lemma components_Join es :
  os.components (filepath.Join es) = filepath.normal true (es ≫= Str.split "/"%char).
Proof.
  induction es as [|e es IH]; [done|].
  cbn [filepath.Join]. case_bool_decide as He.
  - subst e. by rewrite IH, bind_cons.
  - rewrite components_Clean. unfold os.components, filepath.Separator.
    by rewrite split_join.
Qed.

Lemma plain_no_sep c : filepath.plain c = true → Str.contains "/"%char c = false.
Proof.
  unfold filepath.plain, filepath.Separator. intros H.
  by destruct (Str.contains "/" c); [rewrite !andb_false_r in H|].
Qed.

Lemma components_Join_snoc es c :
  filepath.plain c = true →
  os.components (filepath.Join (es ++ [c]))
  = (os.components (filepath.Join es) ++ [c])%list.
Proof.
  intros Hc. rewrite !components_Join, bind_app, bind_cons. change ([] ≫= Str.split "/"%char) with (@nil string).
  rewrite split_no_sep, app_nil_r by by apply plain_no_sep.
  by apply normal_snoc.
Qed.

Lemma components_Join_file dir c :
  filepath.plain c = true →
  os.components (filepath.Join [dir; c]) = (os.components dir ++ [c])%list.
Proof.
  intros Hc. rewrite components_Join, !bind_cons. change ([] ≫= Str.split "/"%char) with (@nil string).
  rewrite (split_no_sep _ c), app_nil_r by by apply plain_no_sep.
  by apply normal_snoc.
Qed.

Lemma components_PathJoinWithBase_snoc name p c :
  filepath.plain c = true →
  os.components (registry.PathJoinWithBase name (p ++ [c]))
  = (os.components (registry.PathJoinWithBase name p) ++ [c])%list.
Proof.
  intros Hc. unfold registry.PathJoinWithBase.
  by rewrite app_assoc, components_Join_snoc.
Qed.
End components.

Section tree.
Implicit Types (p q : list string) (n x : os.node) (m : gmap string os.node).

Lemma walk_app p q n : os.walk (p ++ q) n = n' ← os.walk p n; os.walk q n'.
Proof.
  revert n. induction p as [|c p IH]; intros n; [done|].
  simpl. destruct n as [|m]; [done|]. destruct (m !! c); [apply IH|done].
Qed.

Lemma walk_focus p q n x : os.walk p n = Ok x → os.walk (p ++ q) n = os.walk q x.
Proof. intros H. by rewrite walk_app, H. Qed.

Lemma parent_and_name_snoc p c : os.parent_and_name (p ++ [c]) = Some (p, c).
Proof.
  induction p as [|a p IH]; [done|].
  simpl. rewrite IH. by destruct p.
Qed.

Lemma update_focus p q g n x :
  os.walk p n = Ok x →
  os.update (p ++ q) g n = x' ← os.update q g x; Ok (os.put p x' n).
Proof.
  revert n. induction p as [|c p IH]; intros n; simpl.
  - intros [= ->]. by destruct (os.update q g x).
  - destruct n as [|m]; [done|]. destruct (m !! c) as [n'|] eqn:E; [|done].
    intros H. rewrite (IH _ H). by destruct (os.update q g x).
Qed.

Lemma mkdir_all_focus p q n x :
  os.walk p n = Ok x →
  os.mkdir_all (p ++ q) n = x' ← os.mkdir_all q x; Ok (os.put p x' n).
Proof.
  revert n. induction p as [|c p IH]; intros n; simpl.
  - intros [= ->]. by destruct (os.mkdir_all q x).
  - destruct n as [|m]; [done|]. destruct (m !! c) as [n'|] eqn:E; [|done].
    intros H. simpl. rewrite (IH _ H). by destruct (os.mkdir_all q x).
Qed.

Lemma walk_put p n x x' : os.walk p n = Ok x → os.walk p (os.put p x' n) = Ok x'.
Proof.
  revert n. induction p as [|c p IH]; intros n; simpl; [done|].
  destruct n as [|m]; [done|]. destruct (m !! c) as [n'|] eqn:E; [|done].
  intros H. rewrite lookup_insert_eq. simpl. eauto.
Qed.

Lemma put_put p n x x' : os.put p x' (os.put p x n) = os.put p x' n.
Proof.
  revert n. induction p as [|c p IH]; intros n; simpl; [done|].
  destruct n as [|m]; [done|].
  rewrite lookup_insert_eq, insert_insert_eq. simpl. by rewrite IH.
Qed.

Lemma walk_empty_dir q : q ≠ [] → os.walk q (os.Dir ∅) = Err os.ENOENT.
Proof. by destruct q. Qed.

(** [MkdirAll] makes its path a directory and changes nothing below it. *)
Lemma mkdir_all_frame p n n1 :
  os.mkdir_all p n = Ok n1 →
  (∃ m, os.walk p n1 = Ok (os.Dir m))
  ∧ ∀ q, q ≠ [] → os.walk (p ++ q) n1 = os.walk (p ++ q) n.
Proof.
  revert n n1. induction p as [|c p IH]; intros n n1; simpl.
  - destruct n as [|m]; [done|]. intros [= <-]. eauto.
  - destruct n as [|m]; [done|].
    destruct (os.mkdir_all p (default (os.Dir ∅) (m !! c))) as [n'|] eqn:E; [|done].
    intros [= <-]. apply IH in E as [Hdir Hbelow].
    rewrite lookup_insert_eq. split; [done|]. intros q Hq.
    rewrite Hbelow by done. destruct (m !! c); [done|].
    apply walk_empty_dir. by destruct p.
Qed.

Lemma mkdir_all_existing p n m :
  os.walk p n = Ok (os.Dir m) → os.mkdir_all p n = Ok n.
Proof.
  revert n. induction p as [|c p IH]; intros n; simpl.
  - by intros [= ->].
  - destruct n as [|m']; [done|]. destruct (m' !! c) as [n'|] eqn:E; [|done].
    intros H. simpl. rewrite (IH _ H). simpl. by rewrite insert_id.
Qed.

Lemma mkdir_all_app p q n :
  os.mkdir_all (p ++ q) n = n1 ← os.mkdir_all p n; os.update p (os.mkdir_all q) n1.
Proof.
  revert n. induction p as [|c p IH]; intros n; simpl.
  - destruct n; [by destruct q|done].
  - destruct n as [|m]; [done|]. rewrite IH.
    destruct (os.mkdir_all p (default (os.Dir ∅) (m !! c))) as [k|]; [|done].
    simpl. rewrite lookup_insert_eq.
    destruct (os.update p (os.mkdir_all q) k); [|done].
    simpl. by rewrite insert_insert_eq.
Qed.
End tree.

(** ** The calls of [os] below a directory of the tree

    When the walk [R] ends at a node, a call on a path that goes through
    [R] is the same call on that node. The tree is kept in the form
    [os.put R x fs]. *)
Section focus.
Implicit Types (p q R : list string) (n x : os.node) (m : gmap string os.node).

Lemma put_same R fs x : os.walk R fs = Ok x → os.put R x fs = fs.
Proof.
  revert fs. induction R as [|c R IH]; intros fs; simpl.
  - by intros [= ->].
  - destruct fs as [|m]; [done|]. destruct (m !! c) as [n'|] eqn:E; [|done].
    intros H. simpl. by rewrite (IH _ H), insert_id.
Qed.

Lemma walk_in R q fs x0 x :
  os.walk R fs = Ok x0 → os.walk (R ++ q) (os.put R x fs) = os.walk q x.
Proof. intros H. apply walk_focus. by eapply walk_put. Qed.

Lemma update_in R q g fs x0 x :
  os.walk R fs = Ok x0 →
  os.update (R ++ q) g (os.put R x fs) = x' ← os.update q g x; Ok (os.put R x' fs).
Proof.
  intros H. erewrite update_focus by by eapply walk_put.
  destruct (os.update q g x); [|done]. simpl. by rewrite put_put.
Qed.

Lemma mkdir_all_in R q fs x0 x :
  os.walk R fs = Ok x0 →
  os.mkdir_all (R ++ q) (os.put R x fs) = x' ← os.mkdir_all q x; Ok (os.put R x' fs).
Proof.
  intros H. erewrite mkdir_all_focus by by eapply walk_put.
  destruct (os.mkdir_all q x); [|done]. simpl. by rewrite put_put.
Qed.

Lemma parent_and_name_app R q :
  q ≠ [] →
  os.parent_and_name (R ++ q)
  = (λ '(d, c), ((R ++ d)%list, c)) <$> os.parent_and_name q.
Proof.
  intros Hq. destruct (exists_last Hq) as (d & c & ->).
  by rewrite app_assoc, !parent_and_name_snoc.
Qed.

Lemma create_in R q fs x0 x :
  q ≠ [] → os.walk R fs = Ok x0 →
  os.create (R ++ q) (os.put R x fs) = x' ← os.create q x; Ok (os.put R x' fs).
Proof.
  intros Hq H. unfold os.create. rewrite parent_and_name_app by done.
  destruct (os.parent_and_name q) as [[d c]|]; [|done]. simpl.
  by eapply update_in.
Qed.

Lemma write_in R q data fs x0 x :
  os.walk R fs = Ok x0 →
  os.write (R ++ q) data (os.put R x fs)
  = x' ← os.write q data x; Ok (os.put R x' fs).
Proof. intros H. by eapply update_in. Qed.

Lemma unlink_in R q fs x0 x :
  q ≠ [] → os.walk R fs = Ok x0 →
  os.unlink (R ++ q) (os.put R x fs) = x' ← os.unlink q x; Ok (os.put R x' fs).
Proof.
  intros Hq H. unfold os.unlink. rewrite parent_and_name_app by done.
  destruct (os.parent_and_name q) as [[d c]|]; [|done]. simpl.
  by eapply update_in.
Qed.

Lemma link_in R q n fs x0 x :
  q ≠ [] → os.walk R fs = Ok x0 →
  os.link (R ++ q) n (os.put R x fs) = x' ← os.link q n x; Ok (os.put R x' fs).
Proof.
  intros Hq H. unfold os.link. rewrite parent_and_name_app by done.
  destruct (os.parent_and_name q) as [[d c]|]; [|done]. simpl.
  by eapply update_in.
Qed.

Lemma is_prefix_app R p q : os.is_prefix (R ++ p) (R ++ q) = os.is_prefix p q.
Proof. induction R as [|c R IH]; [done|]. simpl. by rewrite bool_decide_eq_true_2. Qed.

Lemma rename_in R po pn fs x0 x :
  po ≠ [] → pn ≠ [] → os.walk R fs = Ok x0 →
  os.rename (R ++ po) (R ++ pn) (os.put R x fs)
  = x' ← os.rename po pn x; Ok (os.put R x' fs).
Proof.
  intros Ho Hn H. unfold os.rename.
  rewrite !(walk_in _ _ _ _ _ H). destruct (os.walk po x) as [n|]; [|done]. simpl.
  rewrite (bool_decide_ext ((R ++ po)%list = (R ++ pn)%list) (po = pn))
    by (split; [apply app_inv_head|by intros ->]).
  case_bool_decide.
  { done. }
  destruct (os.replaceable n (os.walk pn x)); [|done]. simpl.
  rewrite is_prefix_app. destruct (os.is_prefix po pn); [done|].
  rewrite (unlink_in _ _ _ _ _ Ho H).
  destruct (os.unlink po x) as [x1|]; [|done]. simpl.
  by eapply link_in.
Qed.

Lemma remove_in R q fs x0 x :
  q ≠ [] → os.walk R fs = Ok x0 →
  os.remove (R ++ q) (os.put R x fs) = x' ← os.remove q x; Ok (os.put R x' fs).
Proof.
  intros Hq H. unfold os.remove.
  rewrite (walk_in _ _ _ _ _ H). destruct (os.walk q x) as [[|m]|]; [| |done]; simpl.
  - by eapply unlink_in.
  - case_bool_decide; [by eapply unlink_in|done].
Qed.

Lemma readdir_in R q fs x0 x :
  os.walk R fs = Ok x0 → os.readdir (R ++ q) (os.put R x fs) = os.readdir q x.
Proof. intros H. unfold os.readdir. by rewrite (walk_in _ _ _ _ _ H). Qed.

Lemma IsNotExist_stat p fs :
  os.IsNotExist (os.stat p fs) = os.IsNotExist (os.walk p fs).
Proof. unfold os.stat. by destruct (os.walk p fs). Qed.
End focus.

(** ** Digests, bodies and layer names *)
Section values.
Context `{Libraries}.

Lemma append_cons c (s t : string) : String c s ++ t = String c (s ++ t).
Proof. done. Qed.

Lemma cut_colon_app s a e : digest.cut_colon s = Some (a, e) → s = a ++ String ":"%char e.
Proof.
  revert a e. induction s as [|c s IH]; intros a e; simpl; [done|].
  case_decide as Hc.
  - intros [= <- <-]. by rewrite Hc.
  - destruct (digest.cut_colon s) as [[l r]|]; [|done].
    intros [= <- <-]. rewrite append_cons. f_equal. by apply IH.
Qed.

Lemma contains_app c s t :
  Str.contains c (s ++ t) = Str.contains c s || Str.contains c t.
Proof.
  induction s as [|a s IH]; [done|].
  rewrite append_cons. simpl. by case_decide.
Qed.

Lemma lower_hex_no_sep e :
  digest.all_chars digest.lower_hex e = true → Str.contains "/"%char e = false.
Proof.
  induction e as [|a e IH]; simpl; [done|].
  intros [Ha He]%andb_true_iff. case_decide as E; [by subst a|auto].
Qed.

(** A digest that parses is one plain path element, and is kept as it is. *)
Lemma Parse_plain dq d :
  digest.Parse dq = Ok d → d = dq ∧ filepath.plain dq = true.
Proof.
  unfold digest.Parse, digest.Validate.
  destruct (digest.cut_colon dq) as [[a e]|] eqn:Hcut; [|done].
  destruct (bool_decide (a = "") || bool_decide (e = "")); [done|].
  destruct (digest.encoded_length a) as [n|] eqn:Hlen; [|done].
  destruct (negb _); [done|].
  destruct (digest.all_chars digest.lower_hex e) eqn:Hhex; [|done].
  intros [= <-]. split; [done|].
  apply cut_colon_app in Hcut as ->. apply lower_hex_no_sep in Hhex.
  unfold filepath.plain, filepath.Separator.
  rewrite contains_app. simpl. rewrite Hhex, orb_false_r.
  unfold digest.encoded_length in Hlen.
  repeat case_bool_decide; simplify_eq; done.
Qed.

Lemma Read_ReadAll size r got st r' :
  io.Read size r = (got, st, r') →
  match st with
  | io.ErrUnexpectedEOF => True
  | _ => io.ReadAll r = ((got ++ (io.ReadAll r').1)%list, (io.ReadAll r').2)
  end.
Proof.
  destruct r as [|[chunk|] r0]; simpl.
  - by intros [= <- <- <-].
  - case_decide; intros [= <- <- <-].
    + by destruct (io.ReadAll r0).
    + simpl. destruct (io.ReadAll r0). simpl.
      by rewrite app_assoc, take_drop.
  - by intros [= <- <- <-].
Qed.

Lemma layer_plain buf : filepath.plain ("layer" ++ registry.detectExt buf) = true.
Proof. unfold registry.detectExt. by destruct (IsArchive buf). Qed.

End values.

(** ** The handlers below the directory of a repository *)
#[local] Arguments filepath.Join _ : simpl never.
#[local] Arguments filepath.Ext _ : simpl never.
#[local] Arguments os.list_dir _ : simpl never.
#[local] Arguments os.components _ : simpl never.
#[local] Arguments Str.HasSuffix _ _ : simpl never.
#[local] Arguments FormatInt _ : simpl never.

Section patch_below.
Context `{Libraries}.
Implicit Types (name u dq f : string) (fs x : os.node) (m ms mb : gmap string os.node).


Lemma components_dir name c :
  filepath.plain c = true →
  os.components (registry.PathJoinWithBase name [c]) = (repo name ++ [c])%list.
Proof. intros Hc. exact (components_PathJoinWithBase_snoc name [] c Hc). Qed.

Lemma components_file name c f :
  filepath.plain c = true → filepath.plain f = true →
  os.components (filepath.Join [registry.PathJoinWithBase name [c]; f])
  = (repo name ++ [c; f])%list.
Proof.
  intros Hc Hf. rewrite components_Join_file, components_dir by done.
  by rewrite <-app_assoc.
Qed.

Lemma Read_broken size r got r' :
  io.Read size r = (got, io.ErrUnexpectedEOF, r') →
  (io.ReadAll r).2 = io.ErrUnexpectedEOF.
Proof.
  destruct r as [|[chunk|] r0]; simpl; [done| |done].
  by case_decide.
Qed.


Lemma PushBlobPatch_in name u body fs x0 m ms B :
  filepath.plain u = true →
  os.walk (repo name) fs = Ok x0 →
  default (os.Dir ∅) (m !! u) = os.Dir ms →
  (∀ k, ms !! layer_name body ≠ Some (os.Dir k)) →
  io.ReadAll body = (B, io.nil) →
  let o := PushBlobPatch name u body (os.put (repo name) (os.Dir m) fs) in
  failure o = None
  ∧ tree o = os.put (repo name)
               (os.Dir (<[u := os.Dir (<[layer_name body := os.File B]> ms)]> m)) fs
  ∧ http.wrote (writer o)
    = Some (http.StatusAccepted,
            http.Set_ "Range" ("0-" ++ FormatInt (Z.of_nat (length B)))
              (http.Set_ "Docker-Upload-UUID" u
                 (http.Set_ "Location" ("/v2/" ++ name ++ "/blobs/uploads/" ++ u) ∅))).
Proof.
  intros Hu Hfs Hms Hfree Hbody. unfold PushBlobPatch, registry.CreateLayer.
  unfold layer_name in *.
  destruct (io.Read registry.buffer_size body) as [[got st] r'] eqn:Hread.
  simpl in Hfree. cbv beta iota zeta.
  set (f := "layer" ++ registry.detectExt (registry.buffer_after got)) in *.
  assert (filepath.plain f = true) as Hf by apply layer_plain.
  unfold os.MkdirAll, os.Create, os.append.
  rewrite components_dir, components_file by done.
  rewrite (mkdir_all_in _ _ _ _ _ Hfs). simpl os.mkdir_all. rewrite Hms. simpl.
  rewrite (create_in (repo name) [u; f] _ _ _ ltac:(done) Hfs).
  unfold os.create. simpl. rewrite lookup_insert_eq. simpl.
  assert (match ms !! f with
          | Some (os.Dir _) => Err os.EISDIR
          | _ => Ok (<[f:=os.File []]> ms)
          end = Ok (<[f:=os.File []]> ms)) as ->.
  { destruct (ms !! f) as [[|k]|] eqn:E; [done| |done]. by destruct (Hfree k). }
  simpl. rewrite insert_insert_eq.
  pose proof (Read_ReadAll _ _ _ _ _ Hread) as Hall.
  destruct st.
  - rewrite Hbody in Hall. destruct (io.ReadAll r') as [rest st'].
    simpl in Hall. injection Hall as -> <-.
    rewrite (write_in _ _ _ _ _ _ Hfs). unfold os.write. simpl.
    rewrite !lookup_insert_eq. simpl. rewrite !insert_insert_eq.
    done.
  - rewrite Hbody in Hall. destruct (io.ReadAll r') as [rest st'].
    simpl in Hall. injection Hall as -> <-.
    rewrite (write_in _ _ _ _ _ _ Hfs). unfold os.write. simpl.
    rewrite !lookup_insert_eq. simpl. rewrite !insert_insert_eq.
    done.
  - apply Read_broken in Hread. by rewrite Hbody in Hread.
Qed.
End patch_below.

Section put_below.
Context `{Libraries}.
Implicit Types (name u dq f : string) (fs x : os.node) (m ms mb : gmap string os.node).

Lemma list_dir_singleton f n :
  os.list_dir (os.Dir {[f := n]}) = Ok [os.info f n].
Proof. unfold os.list_dir. by rewrite map_to_list_singleton. Qed.

Lemma Name_info f n : os.Name (os.info f n) = f.
Proof. by destruct n. Qed.

Lemma PushBlobPut_in name u dq f B fs x0 m mb :
  filepath.plain u = true → filepath.plain f = true →
  is_Ok (digest.Parse dq) = true → u ≠ dq →
  os.walk (repo name) fs = Ok x0 →
  m !! u = Some (os.Dir {[f := os.File B]}) →
  default (os.Dir ∅) (m !! dq) = os.Dir mb →
  (∀ k, mb !! f ≠ Some (os.Dir k)) →
  let o := PushBlobPut name u dq (os.put (repo name) (os.Dir m) fs) in
  failure o = None
  ∧ tree o = os.put (repo name)
               (os.Dir (<[dq := os.Dir (<[f := os.File B]> mb)]> (delete u m))) fs
  ∧ http.wrote (writer o) = Some (http.StatusCreated, ∅).
Proof.
  intros Hu Hf Hparse Hne Hfs Hmu Hmb Hfree. unfold PushBlobPut.
  destruct (digest.Parse dq) as [d|] eqn:Hd; [|done].
  apply Parse_plain in Hd as [-> Hdq]. unfold digest.String.
  unfold os.MkdirAll, registry.PickupFileinfo, os.ReadDir, os.Rename, os.Remove.
  rewrite !components_dir by done.
  rewrite (mkdir_all_in _ _ _ _ _ Hfs). simpl os.mkdir_all. rewrite Hmb. simpl.
  set (m1 := <[dq:=os.Dir mb]> m).
  assert (m1 !! u = Some (os.Dir {[f := os.File B]})) as Hu1
    by by (unfold m1; rewrite lookup_insert_ne).
  assert (m1 !! dq = Some (os.Dir mb)) as Hd1 by apply lookup_insert_eq.
  rewrite (readdir_in _ _ _ _ _ Hfs). unfold os.readdir. simpl.
  rewrite Hu1. simpl. rewrite map_to_list_singleton. simpl.
  rewrite !components_file by done.
  rewrite (rename_in (repo name) [u; f] [dq; f] _ _ _ ltac:(done) ltac:(done) Hfs).
  unfold os.rename. simpl.
  assert (∀ n : os.node,
            os.replaceable (os.File B)
              (n ← (Ok (os.Dir mb) : result os.errno os.node); os.walk [f] n)
            = Ok ()) as Hrep.
  { intros _. simpl. destruct (mb !! f) as [[|k]|] eqn:E; [done| |done].
    by destruct (Hfree k). }
  specialize (Hrep (os.Dir ∅)). simpl in Hrep.
  rewrite Hu1, Hd1. simpl. rewrite lookup_singleton_eq. simpl.
  rewrite bool_decide_eq_false_2 by (intros [=]; done).
  rewrite Hrep.
  simpl. rewrite (bool_decide_eq_false_2 (u = dq)) by done. simpl.
  unfold os.unlink, os.link. simpl. rewrite Hu1. simpl.
  rewrite delete_singleton_eq.
  set (m2 := <[u:=os.Dir ∅]> m1).
  assert (m2 !! dq = Some (os.Dir mb)) as Hd2
    by by (unfold m2; rewrite lookup_insert_ne).
  rewrite Hd2. simpl.
  set (m3 := <[dq:=os.Dir (<[f:=os.File B]> mb)]> m2).
  assert (m3 !! u = Some (os.Dir ∅)) as Hu3
    by by (unfold m3, m2; rewrite lookup_insert_ne, lookup_insert_eq).
  rewrite (remove_in (repo name) [u] _ _ _ ltac:(done) Hfs).
  unfold os.remove, os.unlink. simpl. rewrite Hu3. simpl.
  rewrite bool_decide_eq_true_2 by done. simpl.
  repeat split. f_equal. f_equal.
  apply map_eq. intros k. unfold m3, m2, m1.
  destruct (decide (k = u)) as [->|];
    [by rewrite lookup_delete_eq, lookup_insert_ne, lookup_delete_eq|].
  rewrite lookup_delete_ne by done.
  destruct (decide (k = dq)) as [->|]; [by rewrite !lookup_insert_eq|].
  by rewrite !lookup_insert_ne, lookup_delete_ne by done.
Qed.
End put_below.

Section pull_below.
Context `{Libraries}.
Implicit Types (name u dq f : string) (fs x : os.node) (m ms mb : gmap string os.node).

(** The first entry of a listing is an entry of the directory, and no
    entry has a smaller name. *)
Lemma list_dir_head mb fi rest :
  os.list_dir (os.Dir mb) = Ok (fi :: rest) →
  (∃ n, mb !! os.Name fi = Some n ∧ fi = os.info (os.Name fi) n)
  ∧ ∀ k, is_Some (mb !! k) → String.le (os.Name fi) k.
Proof.
  unfold os.list_dir. intros [= Hsort].
  pose proof (merge_sort_Permutation os.by_name (uncurry os.info <$> map_to_list mb)) as Hperm.
  assert (StronglySorted os.by_name (merge_sort os.by_name (uncurry os.info <$> map_to_list mb))) as Hsorted.
  { apply StronglySorted_merge_sort.
    - intros a b c. unfold os.by_name. apply transitivity.
    - intros a b. unfold os.by_name. apply total, _. }
  rewrite Hsort in Hperm, Hsorted.
  assert (∀ g, g ∈ fi :: rest ↔ ∃ k n, mb !! k = Some n ∧ g = os.info k n) as Hin.
  { intros g. rewrite Hperm, list_elem_of_fmap. split.
    - intros ([k n] & -> & Hkn%elem_of_map_to_list). eauto.
    - intros (k & n & Hkn%elem_of_map_to_list & ->). by exists (k, n). }
  split.
  - destruct (proj1 (Hin fi)) as (k & n & Hk & ->); [by left|].
    rewrite Name_info. eauto.
  - intros k [n Hk].
    assert (os.info k n ∈ fi :: rest) as [E|Hrest]%elem_of_cons by (apply Hin; eauto).
    + rewrite <-E, Name_info. done.
    + apply StronglySorted_inv in Hsorted as [_ Hall].
      rewrite Forall_forall in Hall. specialize (Hall _ Hrest).
      unfold os.by_name in Hall. by rewrite Name_info in Hall.
Qed.


Lemma PullingBlobs_in name dq fs x0 m mb fi rest nf :
  is_Ok (digest.Parse dq) = true →
  os.walk (repo name) fs = Ok x0 →
  m !! dq = Some (os.Dir mb) →
  os.list_dir (os.Dir mb) = Ok (fi :: rest) →
  filepath.plain (os.Name fi) = true →
  mb !! os.Name fi = Some nf →
  let o := PullingBlobs name dq (os.put (repo name) (os.Dir m) fs) in
  failure o = None
  ∧ http.wrote (writer o) = Some (http.StatusOK, blob_headers (os.Name fi))
  ∧ http.body (writer o) = os.contents nf.
Proof.
  intros Hparse Hfs Hm Hlist Hplain Hnf. unfold PullingBlobs.
  destruct (digest.Parse dq) as [d|] eqn:Hd; [|done].
  apply Parse_plain in Hd as [-> Hdq]. unfold digest.String.
  unfold os.Stat, registry.PickupFileinfo, os.ReadDir, os.Open.
  rewrite !components_dir by done.
  rewrite IsNotExist_stat, (walk_in _ _ _ _ _ Hfs). simpl. rewrite Hm. simpl.
  rewrite (readdir_in _ _ _ _ _ Hfs). unfold os.readdir. simpl. rewrite Hm. simpl.
  injection Hlist as ->. rewrite !components_file by done.
  rewrite (walk_in _ _ _ _ _ Hfs). simpl. rewrite Hm, Hnf.
  unfold blob_headers. by destruct (Str.HasSuffix (os.Name fi) ".json").
Qed.


Lemma PushBlobHead_in name dq fs x0 m mb fi rest :
  is_Ok (digest.Parse dq) = true →
  os.walk (repo name) fs = Ok x0 →
  m !! dq = Some (os.Dir mb) →
  os.list_dir (os.Dir mb) = Ok (fi :: rest) →
  let o := PushBlobHead name dq (os.put (repo name) (os.Dir m) fs) in
  failure o = None
  ∧ http.wrote (writer o) = Some (http.StatusAccepted, head_headers dq fi).
Proof.
  intros Hparse Hfs Hm Hlist. unfold PushBlobHead.
  destruct (digest.Parse dq) as [d|] eqn:Hd; [|done].
  apply Parse_plain in Hd as [-> Hdq]. unfold digest.String.
  unfold os.Stat, registry.PickupFileinfo, os.ReadDir.
  rewrite !components_dir by done.
  rewrite IsNotExist_stat, (walk_in _ _ _ _ _ Hfs). simpl. rewrite Hm. simpl.
  rewrite (readdir_in _ _ _ _ _ Hfs). unfold os.readdir. simpl. rewrite Hm. simpl.
  injection Hlist as ->. unfold head_headers, registry.PredictDockerContentType.
  by case_bool_decide.
Qed.
End pull_below.

Section push.
Context `{Libraries}.
Implicit Types (name u dq f : string) (fs x : os.node) (m ms mb : gmap string os.node).

Lemma update_walk p g n n' :
  os.update p g n = Ok n' → ∃ x, os.walk p n = Ok x.
Proof.
  revert n n'. induction p as [|c p IH]; intros n n'; simpl; [eauto|].
  destruct n as [|m]; [done|]. destruct (m !! c) as [k|]; [|done].
  destruct (os.update p g k) eqn:E; [|done]. intros _. by eapply IH.
Qed.

Lemma create_walk p c fs fs' :
  os.create (p ++ [c]) fs = Ok fs' → ∃ x, os.walk p fs = Ok x.
Proof. unfold os.create. rewrite parent_and_name_snoc. apply update_walk. Qed.

(** A [PATCH] that reports no error has read its body to the end and has
    created the layer file. *)
Lemma PushBlobPatch_ok name u body fs :
  failure (PushBlobPatch name u body fs) = None →
  let dir := registry.PathJoinWithBase name [u] in
  (io.ReadAll body).2 = io.nil
  ∧ is_Ok (os.Create (filepath.Join [dir; layer_name body])
             (ignoring (os.MkdirAll dir fs) fs)) = true.
Proof.
  unfold PushBlobPatch, registry.CreateLayer, layer_name.
  destruct (io.Read registry.buffer_size body) as [[got st] r'] eqn:Hread.
  pose proof (Read_ReadAll _ _ _ _ _ Hread) as Hall.
  cbv beta iota zeta. simpl fst. simpl snd.
  destruct st; [| |done].
  all: destruct (os.Create _ _) as [fs1|]; [|done].
  all: destruct (io.ReadAll r') as [rest st'] eqn:Hrest; simpl in Hall.
  all: rewrite Hall; simpl; by destruct st'.
Qed.

Lemma PushBlobPut_ok name u dq fs :
  failure (PushBlobPut name u dq fs) = None → is_Ok (digest.Parse dq) = true.
Proof. unfold PushBlobPut. by destruct (digest.Parse dq). Qed.

Lemma list_dir_nil mb : os.list_dir (os.Dir mb) = Ok [] → mb = ∅.
Proof.
  unfold os.list_dir. intros [= Hsort].
  pose proof (merge_sort_Permutation os.by_name (uncurry os.info <$> map_to_list mb)) as Hperm.
  rewrite Hsort in Hperm. symmetry in Hperm. apply Permutation_nil_r in Hperm.
  apply fmap_nil_inv in Hperm. by apply map_to_list_empty_iff.
Qed.

(** The tree after [POST], [PATCH] and [PUT] when the session directory
    is new and no blob is stored under the digest yet: the repository
    directory has the blob directory with the layer file, and the session
    directory is gone. *)
Lemma push_tree name u dq body fs0 :
  let session := registry.PathJoinWithBase name [u] in
  let blob := registry.PathJoinWithBase name [dq] in
  let o1 := PushBlob u name fs0 in
  let o2 := PushBlobPatch name u body (tree o1) in
  let o3 := PushBlobPut name u dq (tree o2) in
  filepath.plain u = true → u ≠ dq →
  is_Ok (os.Stat session fs0) = false →
  os.IsNotExist (os.Stat blob fs0) = true ∨ os.ReadDir blob fs0 = Ok [] →
  failure o2 = None → failure o3 = None →
  ∃ fs1 m,
    os.walk (repo name) fs1 = Ok (os.Dir m)
    ∧ is_Ok (digest.Parse dq) = true
    ∧ io.ReadAll body = (io.bytes_of body, io.nil)
    ∧ tree o3 = os.put (repo name)
                  (os.Dir (<[dq := os.Dir {[layer_name body := os.File (io.bytes_of body)]}]> m))
                  fs1.
Proof.
  intros session blob o1.
  assert (∃ t1, t1 = tree o1 ∧ t1 = ignoring (os.mkdir_all (repo name) fs0) fs0)
    as (t1 & <- & Ho1) by (eexists; split; reflexivity).
  clearbody o1. intros o2 o3 Hu Hne Hfresh Hvacant Hpatch Hput.
  pose proof (PushBlobPut_ok _ _ _ _ Hput) as Hparse.
  destruct (digest.Parse dq) as [d|] eqn:Hd; [|done].
  pose proof Hd as [-> Hdq]%Parse_plain.
  apply PushBlobPatch_ok in Hpatch as [Hbody Hcreate].
  unfold os.Stat, os.ReadDir, os.IsNotExist in Hfresh, Hvacant.
  unfold session, blob in Hfresh, Hvacant.
  rewrite !components_dir in Hfresh, Hvacant by done.
  unfold os.MkdirAll, os.Create in Hcreate.
  rewrite components_dir, components_file in Hcreate by (done || apply layer_plain).
  (* the session directory is missing in the tree after [POST] as well *)
  assert (is_Ok (os.walk (repo name ++ [u]) (t1)) = false) as Hfresh1.
  { rewrite Ho1. unfold os.stat in Hfresh.
    destruct (os.mkdir_all (repo name) fs0) as [fs1|] eqn:E; simpl.
    - apply mkdir_all_frame in E as [_ ->]; [|done]. by destruct (os.walk _ fs0).
    - by destruct (os.walk _ fs0). }
  (* so [PATCH] has made it, and [POST] the directory of the repository *)
  destruct (os.mkdir_all (repo name ++ [u]) (t1)) as [fs2|] eqn:Hmk; simpl in Hcreate.
  2:{ destruct (os.create _ _) as [fs3|] eqn:E; [|done].
      change (repo name ++ [u; layer_name body])%list
        with (repo name ++ [u] ++ [layer_name body])%list in E.
      rewrite app_assoc in E. apply create_walk in E as [x E].
      by rewrite E in Hfresh1. }
  rewrite mkdir_all_app in Hmk.
  destruct (os.mkdir_all (repo name) (t1)) as [fs1|] eqn:Hmk1; [|done].
  assert (t1 = fs1 ∧ os.mkdir_all (repo name) fs0 = Ok fs1) as [Heq Hmk0].
  { rewrite Ho1 in Hmk1 |- *.
    destruct (os.mkdir_all (repo name) fs0) as [fs1'|] eqn:E; simpl in *.
    - pose proof E as [[m Hm] _]%mkdir_all_frame.
      rewrite (mkdir_all_existing _ _ _ Hm) in Hmk1. by injection Hmk1 as <-.
    - by rewrite E in Hmk1. }
  pose proof Hmk0 as [[m Hm] Hbelow]%mkdir_all_frame.
  clear Ho1. subst t1.
  exists fs1, m. split; [done|]. split; [done|].
  assert (io.ReadAll body = (io.bytes_of body, io.nil)) as Hall.
  { unfold io.bytes_of. destruct (io.ReadAll body). simpl in *. by subst. }
  split; [done|].
  assert (m !! u = None) as Hmu.
  { rewrite (walk_focus _ _ _ _ Hm) in Hfresh1. simpl in Hfresh1.
    by destruct (m !! u). }
  assert (default (os.Dir ∅) (m !! dq) = os.Dir ∅) as Hmd.
  { unfold os.stat, os.readdir in Hvacant.
    rewrite <-!Hbelow, !(walk_focus _ _ _ _ Hm) in Hvacant by done.
    simpl in Hvacant. destruct (m !! dq) as [[|mb]|]; simpl in *; [naive_solver| |done].
    destruct Hvacant as [?|Hnil]; [done|]. by rewrite (list_dir_nil _ Hnil). }
  (* the tree after [PATCH] *)
  destruct (PushBlobPatch_in name u body fs1 (os.Dir m) m ∅ (io.bytes_of body))
    as (_ & Ht2 & _); try done.
  { by rewrite Hmu. }
  rewrite (put_same _ _ _ Hm) in Ht2. fold o2 in Ht2.
  rewrite insert_empty in Ht2.
  (* the tree after [PUT] *)
  destruct (PushBlobPut_in name u dq (layer_name body) (io.bytes_of body) fs1 (os.Dir m)
              (<[u := os.Dir {[layer_name body := os.File (io.bytes_of body)]}]> m) ∅)
    as (_ & Ht3 & _); try done.
  { apply layer_plain. }
  { by rewrite Hd. }
  { apply lookup_insert_eq. }
  { by rewrite lookup_insert_ne. }
  rewrite <-Ht2 in Ht3. fold o3 in Ht3. rewrite Ht3.
  rewrite insert_empty, delete_insert_eq, delete_id by done. done.
Qed.
End push.

(** ** Picking the file of a directory *)

(** C10. [PickupFileinfo] on a directory with at least one entry returns
    the entry with the smallest name in the byte order of strings, which
    is the first one of the sorted listing; it returns an error exactly
    when the path cannot be read as a directory or the directory is
    empty. *)
Theorem PickupFileinfo_smallest (dir : string) (fs : os.node) :
  (∀ m, os.walk (os.components dir) fs = Ok (os.Dir m) → m ≠ ∅ →
     ∃ fi n, registry.PickupFileinfo dir fs = Ok fi
             ∧ m !! os.Name fi = Some n ∧ fi = os.info (os.Name fi) n
             ∧ ∀ k, is_Some (m !! k) → String.le (os.Name fi) k)
  ∧ (is_Ok (registry.PickupFileinfo dir fs) = false
     ↔ (∀ m, os.walk (os.components dir) fs ≠ Ok (os.Dir m))
       ∨ os.walk (os.components dir) fs = Ok (os.Dir ∅)).
Proof.
  unfold registry.PickupFileinfo, os.ReadDir, os.readdir. split.
  - intros m -> Hm. simpl.
    destruct (merge_sort _ _) as [|fi rest] eqn:E.
    + destruct Hm. apply list_dir_nil. unfold os.list_dir. by rewrite E.
    + assert (os.list_dir (os.Dir m) = Ok (fi :: rest)) as Hl
        by (unfold os.list_dir; by rewrite E).
      apply list_dir_head in Hl as [(n & Hn & Hfi) Hmin].
      exists fi, n. eauto.
  - destruct (os.walk (os.components dir) fs) as [[data|m]|e]; simpl.
    + split; [|done]. intros _. left. by intros m.
    + destruct (merge_sort _ _) as [|fi rest] eqn:E; simpl.
      * split; [|done]. intros _. right. f_equal. f_equal.
        apply list_dir_nil. unfold os.list_dir. by rewrite E.
      * split; [done|].
        intros [Hno| [= ->]]; [by destruct (Hno m)|].
        by rewrite map_to_list_empty in E.
    + split; [|done]. intros _. left. by intros m.
Qed.

Lemma PickupFileinfo_smallest_witness :
  ∃ fi, registry.PickupFileinfo "d"
          (os.Dir {[ "d" := os.Dir (<["layer.tar.gz" := os.File gz_bytes]>
                                      {["layer.json" := os.File object_bytes]}) ]})
        = Ok fi
        ∧ os.Name fi = "layer.json".
Proof.
  destruct (proj1 (PickupFileinfo_smallest "d"
              (os.Dir {[ "d" := os.Dir (<["layer.tar.gz" := os.File gz_bytes]>
                                          {["layer.json" := os.File object_bytes]}) ]}))
              (<["layer.tar.gz" := os.File gz_bytes]>
                 {["layer.json" := os.File object_bytes]}))
    as (fi & n & Hfi & _ & _ & Hmin).
  - reflexivity.
  - intros E. apply (f_equal (lookup "layer.json")) in E. vm_compute in E. discriminate E.
  - exists fi. split; [exact Hfi|].
    vm_compute in Hfi. injection Hfi as <-. reflexivity.
Defined.

(** ** A push followed by a pull *)
Section push_pull.
Context `{Libraries}.

Lemma Get_Set_eq key key' value h :
  http.CanonicalHeaderKey key = http.CanonicalHeaderKey key' →
  http.Get key (http.Set_ key' value h) = Some value.
Proof. unfold http.Get, http.Set_. intros ->. apply lookup_insert_eq. Qed.

Lemma Get_Set_ne key key' value h :
  http.CanonicalHeaderKey key ≠ http.CanonicalHeaderKey key' →
  http.Get key (http.Set_ key' value h) = http.Get key h.
Proof. unfold http.Get, http.Set_. intros ?. by apply lookup_insert_ne. Qed.

Lemma Handler_done o code h :
  failure o = None → http.wrote (writer o) = Some (code, h) →
  Handler o = {| http.StatusCode := code; http.Headers := h;
                 http.Body := http.body (writer o); http.ErrorCode := None |}.
Proof.
  intros Hf Hw. unfold Handler, http.finish, http.WriteHeader.
  by rewrite Hf, Hw, Hw.
Qed.

Lemma PredictDockerContentType_layer buf :
  registry.PredictDockerContentType ("layer" ++ registry.detectExt buf)
  = if IsArchive buf then "application/vnd.docker.image.rootfs.diff.tar.gzip"
    else "application/vnd.docker.distribution.manifest.v2+json".
Proof. unfold registry.detectExt. by destruct (IsArchive buf). Qed.

(** What [GET] and [HEAD] answer after a push into a new session, when no
    blob was stored under the digest before. *)
Lemma pull_after_push name u dq body fs0 :
  let session := registry.PathJoinWithBase name [u] in
  let blob := registry.PathJoinWithBase name [dq] in
  let o1 := PushBlob u name fs0 in
  let o2 := PushBlobPatch name u body (tree o1) in
  let o3 := PushBlobPut name u dq (tree o2) in
  filepath.plain u = true → u ≠ dq →
  is_Ok (os.Stat session fs0) = false →
  os.IsNotExist (os.Stat blob fs0) = true ∨ os.ReadDir blob fs0 = Ok [] →
  failure o2 = None → failure o3 = None →
  Handler (PullingBlobs name dq (tree o3))
  = {| http.StatusCode := http.StatusOK;
       http.Headers := blob_headers (layer_name body);
       http.Body := io.bytes_of body; http.ErrorCode := None |}
  ∧ Handler (PushBlobHead name dq (tree o3))
    = {| http.StatusCode := http.StatusAccepted;
         http.Headers :=
           head_headers dq (os.info (layer_name body) (os.File (io.bytes_of body)));
         http.Body := []; http.ErrorCode := None |}.
Proof.
  intros session blob o1 o2 o3 Hu Hne Hfresh Hvacant Hpatch Hput.
  destruct (push_tree name u dq body fs0 Hu Hne Hfresh Hvacant Hpatch Hput)
    as (fs1 & m & Hm & Hparse & Hall & Ht3).
  fold o1 o2 o3 in Ht3. rewrite Ht3.
  set (f := layer_name body). set (B := io.bytes_of body).
  split.
  - destruct (PullingBlobs_in name dq fs1 (os.Dir m)
                (<[dq:=os.Dir {[f := os.File B]}]> m) {[f := os.File B]}
                (os.info f (os.File B)) [] (os.File B))
      as (Hf & Hw & Hb); try done.
    + apply lookup_insert_eq.
    + apply list_dir_singleton.
    + apply layer_plain.
    + apply lookup_singleton_eq.
    + rewrite (Handler_done _ _ _ Hf Hw), Hb. done.
  - destruct (PushBlobHead_in name dq fs1 (os.Dir m)
                (<[dq:=os.Dir {[f := os.File B]}]> m) {[f := os.File B]}
                (os.info f (os.File B)) [])
      as (Hf & Hw); try done.
    + apply lookup_insert_eq.
    + apply list_dir_singleton.
    + rewrite (Handler_done _ _ _ Hf Hw). f_equal.
      unfold PushBlobHead in *. clear -Hw.
      repeat match type of Hw with
             | context [match ?x with _ => _ end] => destruct x; try done
             end.
Qed.
End push_pull.

Section claims_push.
Context `{Libraries}.

(** C1 (as amended). After a successful push in a new session (POST,
    one PATCH with the bytes B, PUT with the digest d), when no blob was
    stored under d before (its directory was missing or empty), GET of
    the blob answers 200 with exactly B, the bytes read for the detection
    of the media type included, and HEAD carries Content-Length |B|. *)
Theorem push_then_pull (name uuid dq : string) (body : io.Reader) (fs : os.node) :
  push_succeeds name uuid dq body fs → vacant name dq fs →
  let get := Handler (PullingBlobs name dq (pushed name uuid dq body fs)) in
  let head := Handler (PushBlobHead name dq (pushed name uuid dq body fs)) in
  http.StatusCode get = 200%Z
  ∧ http.Body get = io.bytes_of body
  ∧ http.Get "Content-Length" (http.Headers head)
    = Some (FormatInt (Z.of_nat (length (io.bytes_of body)))).
Proof.
  intros (Hu & Hne & Hfresh & Hpatch & Hput) Hvacant.
  destruct (pull_after_push name uuid dq body fs Hu Hne Hfresh Hvacant Hpatch Hput)
    as [Hget Hhead].
  unfold pushed, PUT_of, PATCH_of. cbv zeta. rewrite Hget, Hhead.
  split; [done|]. split; [done|].
  simpl http.Headers. unfold head_headers.
  rewrite !Get_Set_ne by (vm_compute; discriminate).
  by rewrite Get_Set_eq.
Qed.

(** C8 (as amended). After such a push, HEAD serves the media type that
    was detected at PATCH time on the buffer of the first read: the
    tar+gzip type when [IsArchive] holds of it, the manifest JSON type
    otherwise. GET serves application/octet-stream for every blob. *)
Theorem content_type_round_trip (name uuid dq : string) (body : io.Reader) (fs : os.node) :
  push_succeeds name uuid dq body fs → vacant name dq fs →
  let get := Handler (PullingBlobs name dq (pushed name uuid dq body fs)) in
  let head := Handler (PushBlobHead name dq (pushed name uuid dq body fs)) in
  http.Get "Content-Type" (http.Headers head) = Some (detected_type body)
  ∧ http.Get "Content-Type" (http.Headers get) = Some "application/octet-stream".
Proof.
  intros (Hu & Hne & Hfresh & Hpatch & Hput) Hvacant.
  destruct (pull_after_push name uuid dq body fs Hu Hne Hfresh Hvacant Hpatch Hput)
    as [Hget Hhead].
  unfold pushed, PUT_of, PATCH_of. cbv zeta. rewrite Hget, Hhead.
  simpl http.Headers. split.
  - unfold head_headers. rewrite !Get_Set_ne by (vm_compute; discriminate).
    rewrite Get_Set_eq by done. cbn [os.Name].
    unfold layer_name, detected_type. by rewrite PredictDockerContentType_layer.
  - unfold blob_headers.
    destruct (Str.HasSuffix (layer_name body) ".json"); by rewrite Get_Set_eq.
Qed.
End claims_push.

Lemma push_then_pull_witness :
  let fs := pushed (H := sample) "myorg/myrepo" uuid1 gz_digest [io.Data gz_bytes] empty_store in
  http.StatusCode (Handler (PullingBlobs "myorg/myrepo" gz_digest fs)) = 200%Z
  ∧ http.Body (Handler (PullingBlobs "myorg/myrepo" gz_digest fs)) = gz_bytes
  ∧ http.Get "Content-Length" (http.Headers (Handler (PushBlobHead "myorg/myrepo" gz_digest fs)))
    = Some "8".
Proof.
  apply (push_then_pull (H := sample) "myorg/myrepo" uuid1 gz_digest [io.Data gz_bytes] empty_store).
  - repeat split; try (vm_compute; reflexivity). vm_compute. discriminate.
  - left. vm_compute. reflexivity.
Defined.

Lemma push_pull_counterexample : ¬ push_pull_as_stated.
Proof.
  intros Hc.
  destruct (Hc sample "myorg/myrepo" uuid2 gz_digest [io.Data gz_bytes] mislabelled)
    as [Hbody _].
  - repeat split; try (vm_compute; reflexivity). vm_compute. discriminate.
  - vm_compute in Hbody. discriminate Hbody.
Qed.

Lemma content_type_round_trip_witness :
  let fs := pushed (H := sample) "myorg/myrepo" uuid1 gz_digest [io.Data gz_bytes] empty_store in
  http.Get "Content-Type" (http.Headers (Handler (PushBlobHead "myorg/myrepo" gz_digest fs)))
  = Some "application/vnd.docker.image.rootfs.diff.tar.gzip"
  ∧ http.Get "Content-Type" (http.Headers (Handler (PullingBlobs "myorg/myrepo" gz_digest fs)))
    = Some "application/octet-stream".
Proof.
  apply (content_type_round_trip (H := sample) "myorg/myrepo" uuid1 gz_digest [io.Data gz_bytes] empty_store).
  - repeat split; try (vm_compute; reflexivity). vm_compute. discriminate.
  - left. vm_compute. reflexivity.
Defined.

Lemma content_type_counterexample : ¬ content_type_as_stated.
Proof.
  intros Hc.
  destruct (Hc sample "myorg/myrepo" uuid1 gz_digest [io.Data gz_bytes] empty_store)
    as [_ Hget].
  - repeat split; try (vm_compute; reflexivity). vm_compute. discriminate.
  - left. vm_compute. reflexivity.
  - vm_compute in Hget. discriminate Hget.
Qed.

(** ** [PATCH]: no record of sessions *)
Section patch.
Context `{Libraries}.
Implicit Types (name u dq f : string) (fs x : os.node) (m ms mb : gmap string os.node).

(** [PATCH] seen from the directory of its reference, once [MkdirAll] has
    made sure of it. *)
Lemma PushBlobPatch_at name reference body fs fs1 ms B :
  let dir := os.components (registry.PathJoinWithBase name [reference]) in
  ignoring (os.mkdir_all dir fs) fs = fs1 →
  os.walk dir fs1 = Ok (os.Dir ms) →
  (∀ k, ms !! layer_name body ≠ Some (os.Dir k)) →
  io.ReadAll body = (B, io.nil) →
  let o := PushBlobPatch name reference body fs in
  failure o = None
  ∧ tree o = os.put dir (os.Dir (<[layer_name body := os.File B]> ms)) fs1
  ∧ http.StatusCode (Handler o) = http.StatusAccepted.
Proof.
  intros dir Hmk Hdir Hfree Hbody.
  assert (PushBlobPatch name reference body fs
          = done (os.put dir (os.Dir (<[layer_name body := os.File B]> ms)) fs1)
              (http.WriteHeader http.StatusAccepted
                 (http.SetHeader "Range" ("0-" ++ FormatInt (Z.of_nat (length B)))
                    (http.SetHeader "Docker-Upload-UUID" reference
                       (http.SetHeader "Location"
                          ("/v2/" ++ name ++ "/blobs/uploads/" ++ reference)
                          http.fresh))))) as Ho; [|by rewrite Ho].
  unfold PushBlobPatch, registry.CreateLayer, layer_name in *.
  destruct (io.Read registry.buffer_size body) as [[got st] r'] eqn:Hread.
  simpl in Hfree. cbv beta iota zeta.
  set (f := "layer" ++ registry.detectExt (registry.buffer_after got)) in *.
  assert (filepath.plain f = true) as Hf by apply layer_plain.
  pose proof (Read_ReadAll _ _ _ _ _ Hread) as Hall.
  pose proof (create_in dir [f] fs1 _ (os.Dir ms) ltac:(done) Hdir) as Hc.
  rewrite (put_same _ _ _ Hdir) in Hc. unfold os.create in Hc at 2. simpl in Hc.
  assert (match ms !! f with
          | Some (os.Dir _) => Err os.EISDIR
          | _ => Ok (<[f:=os.File []]> ms)
          end = Ok (<[f:=os.File []]> ms)) as Hfile.
  { destruct (ms !! f) as [[|k]|] eqn:E; [done| |done]. by destruct (Hfree k). }
  rewrite Hfile in Hc. simpl in Hc.
  pose proof (write_in dir [f] B fs1 _ (os.Dir (<[f:=os.File []]> ms)) Hdir) as Hw.
  unfold os.write in Hw at 2. simpl in Hw.
  rewrite lookup_insert_eq in Hw. simpl in Hw. rewrite insert_insert_eq in Hw.
  destruct st.
  3:{ apply Read_broken in Hread. by rewrite Hbody in Hread. }
  all: rewrite Hbody in Hall; destruct (io.ReadAll r') as [rest st'].
  all: simpl in Hall; injection Hall as -> <-.
  all: unfold os.MkdirAll, os.Create, os.append.
  all: rewrite components_Join_file by done; fold dir; rewrite Hmk.
  all: by rewrite Hc, Hw.
Qed.

(** C3 (as amended). The server keeps no record of open sessions. A
    PATCH to an upload reference is never answered with an error code of
    the registry, so never with BLOB_UPLOAD_UNKNOWN, and never with 404:
    its answer is 202 or, for an error without code, 500. When the
    reference has no directory, [MkdirAll] can make it and the body
    arrives whole, PATCH makes the directory, stores the body in it as
    the layer file and answers 202. *)
Theorem patch_needs_no_session (name reference : string) (body : io.Reader)
    (fs : os.node) :
  let o := PushBlobPatch name reference body fs in
  let dir := registry.PathJoinWithBase name [reference] in
  (http.ErrorCode (Handler o) = None
   ∧ (http.StatusCode (Handler o) = 202%Z ∨ http.StatusCode (Handler o) = 500%Z))
  ∧ (is_Ok (os.Stat dir fs) = false → is_Ok (os.MkdirAll dir fs) = true →
     (io.ReadAll body).2 = io.nil →
     http.StatusCode (Handler o) = 202%Z
     ∧ os.ReadDir dir (tree o)
       = Ok [os.info (layer_name body) (os.File (io.bytes_of body))]).
Proof.
  intros o dir. split.
  - unfold o, PushBlobPatch.
    destruct (registry.CreateLayer _ _ _) as [[fs' size] [[e|e]|]]; simpl; auto.
  - intros Hnew Hmk Hbody. unfold os.Stat, os.stat, os.MkdirAll, dir in Hnew, Hmk.
    destruct (os.mkdir_all _ fs) as [fs1|] eqn:Hmk1; [|done].
    pose proof Hmk1 as [[ms Hms] Hbelow]%mkdir_all_frame.
    assert (ms = ∅) as ->.
    { apply map_eq. intros c. rewrite lookup_empty.
      specialize (Hbelow [c] ltac:(done)).
      rewrite (walk_focus _ _ _ _ Hms) in Hbelow. simpl in Hbelow.
      rewrite walk_app in Hbelow.
      destruct (os.walk _ fs); [done|]. by destruct (ms !! c). }
    destruct (PushBlobPatch_at name reference body fs fs1 ∅ (io.bytes_of body))
      as (Hf & Ht & Hs); try done.
    { by rewrite Hmk1. }
    { unfold io.bytes_of. destruct (io.ReadAll body). simpl in *. by subst. }
    fold o in Hf, Ht, Hs. split; [done|].
    unfold os.ReadDir, dir. rewrite Ht.
    rewrite <-(app_nil_r (os.components _)) at 1.
    rewrite (readdir_in _ _ _ _ _ Hms). unfold os.readdir. simpl.
    by rewrite insert_empty, list_dir_singleton.
Qed.
End patch.

Lemma patch_needs_no_session_witness :
  http.StatusCode (Handler (PushBlobPatch (H := sample) "myorg/myrepo" "nosuch"
                              [io.Data gz_bytes] empty_store)) = 202%Z
  ∧ os.ReadDir (registry.PathJoinWithBase "myorg/myrepo" ["nosuch"])
      (tree (PushBlobPatch (H := sample) "myorg/myrepo" "nosuch"
               [io.Data gz_bytes] empty_store))
    = Ok [os.info "layer.tar.gz" (os.File gz_bytes)].
Proof.
  apply (proj2 (patch_needs_no_session (H := sample) "myorg/myrepo" "nosuch"
                  [io.Data gz_bytes] empty_store)); vm_compute; reflexivity.
Defined.

Lemma upload_unknown_counterexample : ¬ upload_unknown_as_stated.
Proof.
  intros Hc.
  destruct (Hc sample "myorg/myrepo" "nosuch" gz_digest [io.Data gz_bytes] empty_store)
    as [[Hpatch _] _].
  - vm_compute. reflexivity.
  - vm_compute in Hpatch. discriminate Hpatch.
Qed.

(** ** One directory for sessions, blobs and tags *)
Section shared.
Context `{Libraries}.
Implicit Types (name s c : string) (cs : list string).











Lemma list_dir_length m fis : os.list_dir (os.Dir m) = Ok fis → length fis = size m.
Proof.
  unfold os.list_dir. intros [= <-].
  by rewrite merge_sort_Permutation, length_fmap, length_map_to_list.
Qed.


End shared.



(** ** The manifest store *)
Section manifests.
Context `{Libraries}.

(** A file that was created holds what is written to it next. *)
Lemma create_write p c data fs fs1 :
  os.create (p ++ [c]) fs = Ok fs1 →
  ∃ fs2, os.write (p ++ [c]) data fs1 = Ok fs2
         ∧ os.walk (p ++ [c]) fs2 = Ok (os.File data).
Proof.
  unfold os.create. rewrite parent_and_name_snoc. intros Hc.
  pose proof Hc as [x Hx]%update_walk.
  rewrite <-(app_nil_r p), (update_focus _ _ _ _ _ Hx) in Hc. simpl in Hc.
  destruct x as [|m]; [done|]. simpl in Hc.
  assert (fs1 = os.put p (os.Dir (<[c:=os.File []]> m)) fs) as ->.
  { destruct (m !! c) as [[|k]|]; simpl in Hc; by simplify_eq. }
  rewrite (write_in _ _ _ _ _ _ Hx). unfold os.write. simpl.
  rewrite lookup_insert_eq. simpl. rewrite insert_insert_eq.
  eexists. split; [done|].
  rewrite (walk_in _ _ _ _ _ Hx). simpl. by rewrite lookup_insert_eq.
Qed.

Lemma components_manifest name tag :
  os.components (registry.PathJoinWithBase name [tag; "manifest.json"])
  = os.components (filepath.Join [registry.PathJoinWithBase name [tag]; "manifest.json"]).
Proof.
  rewrite components_Join_file by done.
  exact (components_PathJoinWithBase_snoc name [tag] "manifest.json" eq_refl).
Qed.

(** C2. For a manifest PUT that succeeds, with a body that decodes to the
    manifest m, the response carries Docker-Content-Digest equal to the
    digest of the configuration of m, and the GET of the same name and
    tag that follows answers 200 with a body that decodes to m again,
    given that the encoder writes the canonical form of what the decoder
    reads. *)
Theorem manifest_round_trip (name tag : string) (body : io.Reader) (fs : os.node) :
  canonical_codec H →
  let o := PushManifestPut name tag body fs in
  failure o = None →
  ∃ m, json_Decode (io.bytes_of body) = Some m
       ∧ http.StatusCode (Handler o) = 201%Z
       ∧ http.Get "Docker-Content-Digest" (http.Headers (Handler o))
         = Some (ocispec.Digest (Config m))
       ∧ http.StatusCode (Handler (PullingManifests name tag (tree o))) = 200%Z
       ∧ json_Decode (http.Body (Handler (PullingManifests name tag (tree o))))
         = Some m.
Proof.
  intros Hcodec o. unfold o, PushManifestPut, io.bytes_of.
  destruct (io.ReadAll body) as [bytes st]. simpl.
  assert (match st with io.nil => json_Decode bytes | _ => None end
          = match (bytes, st) with (b, io.nil) => json_Decode b | _ => None end)
    as Hd by by destruct st.
  destruct (match st with io.nil => json_Decode bytes | _ => None end)
    as [m|] eqn:Hm; [|done].
  assert (json_Decode bytes = Some m) as Hdec by by destruct st.
  unfold os.Create.
  set (dir := registry.PathJoinWithBase name [tag]).
  set (fs' := ignoring (os.MkdirAll dir fs) fs).
  rewrite components_Join_file by done.
  destruct (os.create _ fs') as [fs1|] eqn:Hc; [|done].
  intros _. exists m. split; [done|].
  destruct (create_write _ _ (json_Encode m) _ _ Hc) as (fs2 & Hw & Hwalk).
  assert (os.append (filepath.Join [dir; "manifest.json"]) (json_Encode m) fs1 = fs2)
    as Happ.
  { unfold os.append. by rewrite components_Join_file, Hw. }
  split; [done|]. split.
  { simpl. unfold Handler. simpl. unfold digest.String. by rewrite Get_Set_eq. }
  simpl tree. rewrite Happ.
  unfold PullingManifests, os.Stat, os.Open.
  rewrite IsNotExist_stat, components_manifest, components_Join_file by done.
  fold dir. rewrite Hwalk. simpl. split; [done|]. by eapply Hcodec.
Qed.
End manifests.

Lemma sample_canonical : canonical_codec sample.
Proof.
  intros b m [= <-]. simpl. unfold Str.of_bytes, Str.to_bytes.
  by rewrite Stdlib.Strings.String.string_of_list_byte_of_string.
Qed.

Lemma manifest_round_trip_witness :
  ∃ m, json_Decode (Libraries := sample) (Str.to_bytes object_digest) = Some m
       ∧ http.StatusCode
           (Handler (PushManifestPut (H := sample) "myorg/myrepo" "v1"
                       [io.Data (Str.to_bytes object_digest)] empty_store))
         = 201%Z
       ∧ http.Get "Docker-Content-Digest"
           (http.Headers
              (Handler (PushManifestPut (H := sample) "myorg/myrepo" "v1"
                          [io.Data (Str.to_bytes object_digest)] empty_store)))
         = Some (ocispec.Digest (Config m))
       ∧ http.StatusCode
           (Handler (PullingManifests "myorg/myrepo" "v1"
                       (tree (PushManifestPut (H := sample) "myorg/myrepo" "v1"
                                [io.Data (Str.to_bytes object_digest)] empty_store))))
         = 200%Z
       ∧ json_Decode (Libraries := sample)
           (http.Body
              (Handler (PullingManifests "myorg/myrepo" "v1"
                          (tree (PushManifestPut (H := sample) "myorg/myrepo" "v1"
                                   [io.Data (Str.to_bytes object_digest)] empty_store)))))
         = Some m.
Proof.
  apply (manifest_round_trip (H := sample) "myorg/myrepo" "v1"
           [io.Data (Str.to_bytes object_digest)] empty_store).
  - exact sample_canonical.
  - vm_compute. reflexivity.
Defined.

(** ** [HEAD] of a blob, and a commit that fails *)
Section head_and_commit.
Implicit Types (name dq : string) (fs : os.node).

(** What [HEAD] answers when [PickupFileinfo] finds an entry in the
    directory of the digest. *)
Lemma PushBlobHead_found name dq fs fi :
  is_Ok (digest.Parse dq) = true →
  registry.PickupFileinfo (registry.PathJoinWithBase name [dq]) fs = Ok fi →
  Handler (PushBlobHead name dq fs)
  = {| http.StatusCode := http.StatusAccepted;
       http.Headers := head_headers dq fi;
       http.Body := []; http.ErrorCode := None |}.
Proof.
  intros Hparse Hpick. unfold PushBlobHead.
  destruct (digest.Parse dq) as [d|] eqn:Hd; [|done].
  apply Parse_plain in Hd as [-> _]. unfold digest.String.
  rewrite Hpick.
  assert (os.IsNotExist (os.Stat (registry.PathJoinWithBase name [dq]) fs) = false)
    as ->.
  { unfold registry.PickupFileinfo, os.ReadDir, os.readdir in Hpick.
    unfold os.Stat. rewrite IsNotExist_stat.
    by destruct (os.walk _ fs) as [|[]]. }
  unfold head_headers, registry.PredictDockerContentType.
  by case_bool_decide.
Qed.

Lemma head_headers_values dq fi :
  http.Get "Content-Length" (head_headers dq fi) = Some (FormatInt (os.Size fi))
  ∧ http.Get "Docker-Content-Digest" (head_headers dq fi) = Some dq
  ∧ http.Get "Content-Type" (head_headers dq fi)
    = Some (registry.PredictDockerContentType (os.Name fi)).
Proof.
  unfold head_headers. repeat split.
  all: rewrite ?Get_Set_ne by (vm_compute; discriminate); by rewrite Get_Set_eq.
Qed.

(** What [PUT] leaves when the session has no file to pick up: the error
    of [PickupFileinfo] without code, and the tree as [MkdirAll] of the
    directory of the digest made it. *)
Lemma PushBlobPut_unknown_session name reference dq fs :
  is_Ok (digest.Parse dq) = true →
  let made := ignoring (os.MkdirAll (registry.PathJoinWithBase name [dq]) fs) fs in
  is_Ok (registry.PickupFileinfo (registry.PathJoinWithBase name [reference]) made)
  = false →
  let o := PushBlobPut name reference dq fs in
  tree o = made
  ∧ http.StatusCode (Handler o) = http.StatusInternalServerError
  ∧ http.ErrorCode (Handler o) = None.
Proof.
  intros Hparse made Hpick. unfold PushBlobPut.
  destruct (digest.Parse dq) as [d|] eqn:Hd; [|done].
  apply Parse_plain in Hd as [-> _]. unfold digest.String. fold made.
  by destruct (registry.PickupFileinfo _ made).
Qed.
End head_and_commit.

(** C4. The HEAD of a stored blob: the layer [layer.tar.gz] of eight
    bytes under its digest. The headers are the ones of the claim,
    Content-Length 8, the digest that was asked for and the tar+gzip
    type of an extension other than [.json]; the status is 202, where
    the claim has 200. *)
Theorem head_of_stored_blob :
  let resp := Handler (PushBlobHead "myorg/myrepo" gz_digest
                         (store_with gz_digest "layer.tar.gz" gz_bytes)) in
  http.StatusCode resp = 202%Z
  ∧ http.Get "Content-Length" (http.Headers resp) = Some "8"
  ∧ http.Get "Docker-Content-Digest" (http.Headers resp) = Some gz_digest
  ∧ http.Get "Content-Type" (http.Headers resp)
    = Some "application/vnd.docker.image.rootfs.diff.tar.gzip".
Proof.
  cbv zeta.
  rewrite (PushBlobHead_found "myorg/myrepo" gz_digest _
             (os.info "layer.tar.gz" (os.File gz_bytes)))
    by (vm_compute; reflexivity).
  split; [done|]. apply head_headers_values.
Qed.

(** C5. A commit that fails: PUT for a session that does not exist, on
    an empty tree. The handler returns the error of [PickupFileinfo],
    and the directory of the digest, missing before, is there
    afterwards, empty. *)
Theorem failed_commit_leaves_directory :
  let blob := registry.PathJoinWithBase "myorg/myrepo" [gz_digest] in
  let o := PushBlobPut "myorg/myrepo" "nosuch" gz_digest empty_store in
  os.IsNotExist (os.Stat blob empty_store) = true
  ∧ failure o
    = Some (errors.plain (errors.PickupError (registry.ReadDirError os.ENOENT)))
  ∧ tree o ≠ empty_store
  ∧ os.ReadDir blob (tree o) = Ok [].
Proof.
  cbv zeta. split; [by vm_compute|]. split; [by vm_compute|]. split.
  - intros E. apply (f_equal (os.walk ["testdata"])) in E. vm_compute in E.
    discriminate E.
  - by vm_compute.
Qed.

(** ** The headers of the responses *)
Section headers.
Context `{Libraries}.


End headers.



(** The uploads answer without the two headers: no successful response
    of [PATCH], of the [PUT] of a blob or of the [PUT] of a manifest has
    one of them. *)
Lemma upload_responses_without_api_headers `{Libraries} (name reference dq : string)
    (body : io.Reader) (fs : os.node) (o : outcome) :
  o = PushBlobPatch name reference body fs ∨ o = PushBlobPut name reference dq fs
  ∨ o = PushManifestPut name reference body fs →
  failure o = None →
  http.Get "Docker-Distribution-Api-Version" (http.Headers (Handler o)) = None
  ∧ http.Get "X-Content-Type-Options" (http.Headers (Handler o)) = None.
Proof.
  intros [->|[->| ->]].
  - unfold PushBlobPatch.
    destruct (registry.CreateLayer _ _ _) as [[fs' size] [[e|e]|]]; [done..|].
    intros _. split; vm_compute; reflexivity.
  - unfold PushBlobPut. destruct (digest.Parse dq); [|done].
    destruct (registry.PickupFileinfo _ _); [|done].
    destruct (os.Rename _ _ _); [|done].
    intros _. split; vm_compute; reflexivity.
  - unfold PushManifestPut.
    destruct (match io.ReadAll body with (b, io.nil) => json_Decode b | _ => None end);
      [|done].
    destruct (os.Create _ _); [|done].
    intros _. split; vm_compute; reflexivity.
Qed.

(** ** The route of a blob and its digest *)
Section routing.
Context `{Libraries}.




End routing.



(** * Further properties of the code *)

(** ** [CreateLayer] *)
Section create_layer.
Context `{Libraries}.
Implicit Types (r : io.Reader) (path : string) (fs : os.node) (m : gmap string os.node).

Lemma update_fails p g n e : os.walk p n = Err e → os.update p g n = Err e.
Proof.
  revert n. induction p as [|c p IH]; intros n; simpl; [done|].
  destruct n as [|m]; [done|]. destruct (m !! c) as [k|]; [|done].
  intros Hk. by rewrite (IH _ Hk).
Qed.

Lemma bytes_of_Read r got st r' :
  io.Read registry.buffer_size r = (got, st, r') → st ≠ io.ErrUnexpectedEOF →
  io.ReadAll r = ((got ++ (io.ReadAll r').1)%list, (io.ReadAll r').2).
Proof. intros Hread Hst. apply Read_ReadAll in Hread. by destruct st. Qed.

(** X1. [CreateLayer] into a directory that exists: whatever the chunks
    in which the stream arrives, the file [layer<ext>] of the directory
    holds every byte read up to the end of the stream or up to its
    failure, the bytes of the first read that served the detection
    included; the count returned is the number of those bytes, and the
    error is the one of the stream, none at its end. The other entries
    of the directory stay. *)
Theorem CreateLayer_copies_stream r path fs m :
  os.walk (os.components path) fs = Ok (os.Dir m) →
  (∀ k, m !! layer_name r ≠ Some (os.Dir k)) →
  (io.Read registry.buffer_size r).1.2 ≠ io.ErrUnexpectedEOF →
  registry.CreateLayer r path fs
  = (os.put (os.components path)
       (os.Dir (<[layer_name r := os.File (io.bytes_of r)]> m)) fs,
     Z.of_nat (length (io.bytes_of r)),
     match (io.ReadAll r).2 with
     | io.nil => None
     | st => Some (inr st)
     end).
Proof.
  intros Hdir Hfree Hfirst. unfold registry.CreateLayer, layer_name, io.bytes_of in *.
  destruct (io.Read registry.buffer_size r) as [[got st] r'] eqn:Hread.
  simpl in Hfree, Hfirst.
  set (f := "layer" ++ registry.detectExt (registry.buffer_after got)) in *.
  assert (filepath.plain f = true) as Hf by apply layer_plain.
  rewrite (bytes_of_Read _ _ _ _ Hread Hfirst).
  pose proof (create_in (os.components path) [f] fs _ (os.Dir m) ltac:(done) Hdir) as Hc.
  rewrite (put_same _ _ _ Hdir) in Hc. unfold os.create in Hc at 2. simpl in Hc.
  assert (match m !! f with
          | Some (os.Dir _) => Err os.EISDIR
          | _ => Ok (<[f:=os.File []]> m)
          end = Ok (<[f:=os.File []]> m)) as Hfile.
  { destruct (m !! f) as [[|k]|] eqn:E; [done| |done]. by destruct (Hfree k). }
  rewrite Hfile in Hc. simpl in Hc.
  destruct (io.ReadAll r') as [rest st'] eqn:Hrest. simpl.
  pose proof (write_in (os.components path) [f] (got ++ rest)%list fs _
                (os.Dir (<[f:=os.File []]> m)) Hdir) as Hw.
  unfold os.write in Hw at 2. simpl in Hw.
  rewrite lookup_insert_eq in Hw. simpl in Hw. rewrite insert_insert_eq in Hw.
  unfold os.Create, os.append. rewrite components_Join_file by done.
  destruct st; [| |done]; rewrite Hc; simpl; rewrite Hw; simpl; by destruct st'.
Qed.

(** X2. [CreateLayer] creates nothing when it cannot: a stream that
    fails at the first read, or a path that is no directory, gives back
    the tree as it was, the count 0 and the error, of the read in the
    first case and of [os.Create] in the second. *)
Theorem CreateLayer_creates_nothing r path fs :
  ((io.Read registry.buffer_size r).1.2 = io.ErrUnexpectedEOF →
   registry.CreateLayer r path fs = (fs, 0%Z, Some (inr io.ErrUnexpectedEOF)))
  ∧ (∀ e, (io.Read registry.buffer_size r).1.2 ≠ io.ErrUnexpectedEOF →
          os.walk (os.components path) fs = Err e →
          registry.CreateLayer r path fs = (fs, 0%Z, Some (inl e)))
  ∧ (∀ data, (io.Read registry.buffer_size r).1.2 ≠ io.ErrUnexpectedEOF →
             os.walk (os.components path) fs = Ok (os.File data) →
             registry.CreateLayer r path fs = (fs, 0%Z, Some (inl os.ENOTDIR))).
Proof.
  unfold registry.CreateLayer.
  destruct (io.Read registry.buffer_size r) as [[got st] r'] eqn:Hread. simpl.
  set (f := "layer" ++ registry.detectExt (registry.buffer_after got)).
  assert (filepath.plain f = true) as Hf by apply layer_plain.
  unfold os.Create, os.create.
  rewrite components_Join_file, parent_and_name_snoc by done.
  split; [by intros ->|]. split.
  - intros e Hst Hwalk. rewrite (update_fails _ _ _ _ Hwalk). by destruct st.
  - intros data Hst Hwalk.
    rewrite <-(app_nil_r (os.components path)), (update_focus _ _ _ _ _ Hwalk).
    simpl. by destruct st.
Qed.
End create_layer.

Lemma CreateLayer_copies_stream_witness :
  registry.CreateLayer (H := sample)
    [io.Data [x1f]; io.Data [x8b; x08]; io.Broken] "d" (os.Dir {["d" := os.Dir ∅]})
  = (os.Dir {["d" := os.Dir {["layer.json" := os.File [x1f; x8b; x08]]}]}, 3%Z,
     Some (inr io.ErrUnexpectedEOF)).
Proof.
  rewrite (CreateLayer_copies_stream (H := sample)
             [io.Data [x1f]; io.Data [x8b; x08]; io.Broken] "d"
             (os.Dir {["d" := os.Dir ∅]}) ∅).
  - vm_compute. reflexivity.
  - vm_compute. reflexivity.
  - intros k. vm_compute. discriminate.
  - vm_compute. discriminate.
Defined.

Lemma CreateLayer_creates_nothing_witness :
  registry.CreateLayer (H := sample) [io.Data gz_bytes] "nodir" empty_store
  = (empty_store, 0%Z, Some (inl os.ENOENT)).
Proof.
  apply (proj1 (proj2 (CreateLayer_creates_nothing (H := sample)
                         [io.Data gz_bytes] "nodir" empty_store))).
  - vm_compute. discriminate.
  - vm_compute. reflexivity.
Defined.

(** ** The upload handlers *)
Section uploads.
Context `{Libraries}.
Implicit Types (name reference uuid dq : string) (body : io.Reader) (fs : os.node).

Lemma CreateLayer_done r path fs fs' n :
  registry.CreateLayer r path fs = (fs', n, None) →
  n = Z.of_nat (length (io.bytes_of r)) ∧ (io.ReadAll r).2 = io.nil.
Proof.
  unfold registry.CreateLayer, io.bytes_of.
  destruct (io.Read registry.buffer_size r) as [[got st] r'] eqn:Hread.
  pose proof (Read_ReadAll _ _ _ _ _ Hread) as Hall.
  destruct st; [| |done].
  all: destruct (os.Create _ fs); [|done].
  all: destruct (io.ReadAll r') as [rest st'] eqn:Hrest; simpl in Hall.
  all: rewrite Hall; simpl; destruct st'; [|done..].
  all: by intros [= _ <-].
Qed.

(** The response of a [PATCH] that succeeds. *)
Lemma PushBlobPatch_answer name reference body fs :
  let o := PushBlobPatch name reference body fs in
  failure o = None →
  Handler o
  = {| http.StatusCode := http.StatusAccepted;
       http.Headers :=
         http.Set_ "Range" ("0-" ++ FormatInt (Z.of_nat (length (io.bytes_of body))))
           (http.Set_ "Docker-Upload-UUID" reference
              (http.Set_ "Location" ("/v2/" ++ name ++ "/blobs/uploads/" ++ reference) ∅));
       http.Body := [];
       http.ErrorCode := None |}
  ∧ (io.ReadAll body).2 = io.nil.
Proof.
  intros o. unfold o, PushBlobPatch.
  destruct (registry.CreateLayer _ _ _) as [[fs' n] [[e|e]|]] eqn:Hc; [done..|].
  by apply CreateLayer_done in Hc as [-> Hend].
Qed.

(** X3. A [PATCH] that succeeds answers 202 with the location of the
    upload, the reference as Docker-Upload-UUID and the range from 0 to
    the number of bytes of the body, that number itself and not the
    offset of the last byte; the body has been read to its end. *)
Theorem PushBlobPatch_response name reference body fs :
  let o := PushBlobPatch name reference body fs in
  failure o = None →
  http.StatusCode (Handler o) = 202%Z
  ∧ http.Get "Location" (http.Headers (Handler o))
    = Some ("/v2/" ++ name ++ "/blobs/uploads/" ++ reference)
  ∧ http.Get "Docker-Upload-UUID" (http.Headers (Handler o)) = Some reference
  ∧ http.Get "Range" (http.Headers (Handler o))
    = Some ("0-" ++ FormatInt (Z.of_nat (length (io.bytes_of body))))
  ∧ (io.ReadAll body).2 = io.nil.
Proof.
  intros o Hf. destruct (PushBlobPatch_answer _ _ _ _ Hf) as [Ho Hend].
  fold o in Ho. rewrite Ho. cbn [http.StatusCode http.Headers].
  split; [done|]. split; [|split; [|split; [|done]]].
  - rewrite !Get_Set_ne by (vm_compute; discriminate). by rewrite Get_Set_eq.
  - rewrite Get_Set_ne by (vm_compute; discriminate). by rewrite Get_Set_eq.
  - by rewrite Get_Set_eq.
Qed.

(** X4. [POST] answers 202 with the location of the session that was
    drawn and makes at most the directory of the repository: nothing
    below that directory changes, so the session has no directory
    after [POST] unless it had one before. *)
Theorem PushBlob_opens_no_directory uuid name fs :
  let o := PushBlob uuid name fs in
  failure o = None
  ∧ http.StatusCode (Handler o) = 202%Z
  ∧ http.Get "Location" (http.Headers (Handler o))
    = Some ("/v2/" ++ name ++ "/blobs/uploads/" ++ uuid)
  ∧ (filepath.plain uuid = true →
     os.Stat (registry.PathJoinWithBase name [uuid]) (tree o)
     = os.Stat (registry.PathJoinWithBase name [uuid]) fs).
Proof.
  intros o. split; [done|]. split; [done|]. split.
  - unfold o, PushBlob, Handler, http.finish. simpl.
    rewrite !Get_Set_ne by (vm_compute; discriminate). by rewrite Get_Set_eq.
  - intros Hu. unfold o, PushBlob, os.Stat, os.stat, os.MkdirAll. simpl.
    rewrite components_dir by done. fold (repo name).
    destruct (os.mkdir_all (repo name) fs) as [fs1|] eqn:Hmk; [|done].
    simpl. apply mkdir_all_frame in Hmk as [_ Hbelow]. by rewrite Hbelow.
Qed.

(** X5. Two [PATCH]es into one session do not append. When the second
    body is detected as the same kind as the first, the layer file of the
    session holds the bytes of the second body alone, and the range of
    the second response counts those bytes only. *)
Theorem PushBlobPatch_twice name reference body1 body2 fs :
  let o1 := PushBlobPatch name reference body1 fs in
  let o2 := PushBlobPatch name reference body2 (tree o1) in
  is_Ok (os.Stat (registry.PathJoinWithBase name [reference]) fs) = false →
  failure o1 = None → failure o2 = None →
  layer_name body1 = layer_name body2 →
  os.ReadDir (registry.PathJoinWithBase name [reference]) (tree o2)
  = Ok [os.info (layer_name body2) (os.File (io.bytes_of body2))]
  ∧ http.Get "Range" (http.Headers (Handler o2))
    = Some ("0-" ++ FormatInt (Z.of_nat (length (io.bytes_of body2)))).
Proof.
  intros o1 o2 Hnew Hf1 Hf2 Hsame.
  pose proof (PushBlobPatch_answer _ _ _ _ Hf1) as [_ Hend1].
  pose proof (PushBlobPatch_answer _ _ _ _ Hf2) as [Ho2 Hend2].
  split; [|unfold o2; rewrite Ho2; cbn [http.Headers]; by rewrite Get_Set_eq].
  set (dir := os.components (registry.PathJoinWithBase name [reference])).
  assert (∀ b, (io.ReadAll b).2 = io.nil → io.ReadAll b = (io.bytes_of b, io.nil))
    as Hwhole.
  { intros b Hb. unfold io.bytes_of. destruct (io.ReadAll b). simpl in *. by subst. }
  (* the first [PATCH] has made the directory *)
  apply PushBlobPatch_ok in Hf1 as [_ Hcreate].
  unfold os.Stat, os.stat in Hnew. unfold os.MkdirAll, os.Create in Hcreate.
  rewrite components_Join_file in Hcreate by apply layer_plain.
  fold dir in Hnew, Hcreate.
  destruct (os.mkdir_all dir fs) as [fs1|] eqn:Hmk; simpl in Hcreate.
  2:{ destruct (os.create _ fs) eqn:E; [|done].
      apply create_walk in E as [x E]. by rewrite E in Hnew. }
  pose proof Hmk as [[ms Hms] Hbelow]%mkdir_all_frame.
  assert (ms = ∅) as ->.
  { apply map_eq. intros c. rewrite lookup_empty.
    specialize (Hbelow [c] ltac:(done)).
    rewrite (walk_focus _ _ _ _ Hms) in Hbelow. simpl in Hbelow.
    rewrite walk_app in Hbelow.
    destruct (os.walk dir fs); [done|]. by destruct (ms !! c). }
  destruct (PushBlobPatch_at name reference body1 fs fs1 ∅ (io.bytes_of body1))
    as (_ & Ht1 & _); try done.
  { fold dir. by rewrite Hmk. }
  { by apply Hwhole. }
  fold o1 dir in Ht1.
  assert (os.walk dir (tree o1)
          = Ok (os.Dir (<[layer_name body1:=os.File (io.bytes_of body1)]> ∅))) as Hw1.
  { rewrite Ht1. by eapply walk_put. }
  (* the second one writes over the file *)
  destruct (PushBlobPatch_at name reference body2 (tree o1) (tree o1)
              (<[layer_name body1:=os.File (io.bytes_of body1)]> ∅) (io.bytes_of body2))
    as (_ & Ht2 & _); try done.
  { fold dir. by rewrite (mkdir_all_existing _ _ _ Hw1). }
  { intros k. rewrite <-Hsame, lookup_insert_eq. done. }
  { by apply Hwhole. }
  fold o2 dir in Ht2.
  unfold os.ReadDir, os.readdir. fold dir. rewrite Ht2.
  rewrite (walk_put _ _ _ _ Hw1). simpl.
  by rewrite Hsame, insert_insert_eq, insert_empty, list_dir_singleton.
Qed.
End uploads.

Lemma PushBlobPatch_response_witness :
  http.Get "Range"
    (http.Headers (Handler (PushBlobPatch (H := sample) "myorg/myrepo" uuid1
                              [io.Data gz_bytes] empty_store)))
  = Some "0-8".
Proof.
  apply (PushBlobPatch_response (H := sample) "myorg/myrepo" uuid1
           [io.Data gz_bytes] empty_store).
  vm_compute. reflexivity.
Defined.

Lemma PushBlob_opens_no_directory_witness :
  os.Stat (registry.PathJoinWithBase "myorg/myrepo" [uuid1])
    (tree (PushBlob uuid1 "myorg/myrepo" empty_store))
  = Err os.ENOENT.
Proof.
  rewrite (proj2 (proj2 (proj2 (PushBlob_opens_no_directory uuid1 "myorg/myrepo"
                                  empty_store)))).
  - vm_compute. reflexivity.
  - vm_compute. reflexivity.
Defined.

Lemma PushBlobPatch_twice_witness :
  os.ReadDir (registry.PathJoinWithBase "myorg/myrepo" [uuid1])
    (tree (PushBlobPatch (H := sample) "myorg/myrepo" uuid1 [io.Data array_bytes]
             (tree (PushBlobPatch (H := sample) "myorg/myrepo" uuid1
                      [io.Data object_bytes] empty_store))))
  = Ok [os.info "layer.json" (os.File array_bytes)].
Proof.
  apply (PushBlobPatch_twice (H := sample) "myorg/myrepo" uuid1
           [io.Data object_bytes] [io.Data array_bytes] empty_store);
    vm_compute; reflexivity.
Defined.

(** ** The commit of a blob *)
Section commit.
Context `{Libraries}.
Implicit Types (name u dq f : string) (fs x : os.node) (m mu mb : gmap string os.node).

(** What is left of the session once the file [f] has been moved out: no
    entry when the directory is empty by then, as [os.Remove] takes it
    away, and the directory with the other files when it is not. *)
Lemma PushBlobPut_below name u dq fi rest B fs x0 m mu mb :
  filepath.plain u = true → filepath.plain (os.Name fi) = true →
  is_Ok (digest.Parse dq) = true → u ≠ dq →
  os.walk (repo name) fs = Ok x0 →
  m !! u = Some (os.Dir mu) →
  os.list_dir (os.Dir mu) = Ok (fi :: rest) →
  mu !! os.Name fi = Some (os.File B) →
  default (os.Dir ∅) (m !! dq) = os.Dir mb →
  (∀ k, mb !! os.Name fi ≠ Some (os.Dir k)) →
  let o := PushBlobPut name u dq (os.put (repo name) (os.Dir m) fs) in
  failure o = None
  ∧ http.wrote (writer o) = Some (http.StatusCreated, ∅)
  ∧ tree o
    = os.put (repo name)
        (os.Dir (<[dq := os.Dir (<[os.Name fi := os.File B]> mb)]>
                   (if decide (delete (os.Name fi) mu = ∅) then delete u m
                    else <[u := os.Dir (delete (os.Name fi) mu)]> m))) fs.
Proof.
  intros Hu Hf Hparse Hne Hfs Hmu Hlist Hfile Hmb Hfree. unfold PushBlobPut.
  destruct (digest.Parse dq) as [d|] eqn:Hd; [|done].
  apply Parse_plain in Hd as [-> Hdq]. unfold digest.String.
  unfold os.MkdirAll, registry.PickupFileinfo, os.ReadDir, os.Rename, os.Remove.
  rewrite !components_dir by done.
  rewrite (mkdir_all_in _ _ _ _ _ Hfs). simpl os.mkdir_all. rewrite Hmb. simpl.
  set (f := os.Name fi) in *.
  set (m1 := <[dq:=os.Dir mb]> m).
  assert (m1 !! u = Some (os.Dir mu)) as Hu1
    by by (unfold m1; rewrite lookup_insert_ne).
  assert (m1 !! dq = Some (os.Dir mb)) as Hd1 by apply lookup_insert_eq.
  rewrite (readdir_in _ _ _ _ _ Hfs). unfold os.readdir. simpl.
  rewrite Hu1. simpl. unfold os.list_dir in Hlist. injection Hlist as ->.
  fold f. rewrite !components_file by done.
  rewrite (rename_in (repo name) [u; f] [dq; f] _ _ _ ltac:(done) ltac:(done) Hfs).
  unfold os.rename. simpl.
  assert (∀ n : os.node,
            os.replaceable (os.File B)
              (n ← (Ok (os.Dir mb) : result os.errno os.node); os.walk [f] n)
            = Ok ()) as Hrep.
  { intros _. simpl. destruct (mb !! f) as [[|k]|] eqn:E; [done| |done].
    by destruct (Hfree k). }
  specialize (Hrep (os.Dir ∅)). simpl in Hrep.
  rewrite Hu1, Hd1. simpl. rewrite Hfile. simpl.
  rewrite bool_decide_eq_false_2 by (intros [=]; done).
  rewrite Hrep.
  simpl. rewrite (bool_decide_eq_false_2 (u = dq)) by done. simpl.
  unfold os.unlink, os.link. simpl. rewrite Hu1. simpl.
  set (m2 := <[u:=os.Dir (delete f mu)]> m1).
  assert (m2 !! dq = Some (os.Dir mb)) as Hd2
    by by (unfold m2; rewrite lookup_insert_ne).
  rewrite Hd2. simpl.
  set (m3 := <[dq:=os.Dir (<[f:=os.File B]> mb)]> m2).
  assert (m3 !! u = Some (os.Dir (delete f mu))) as Hu3
    by by (unfold m3, m2; rewrite lookup_insert_ne, lookup_insert_eq).
  rewrite (remove_in (repo name) [u] _ _ _ ltac:(done) Hfs).
  unfold os.remove, os.unlink. simpl. rewrite Hu3. simpl.
  case_decide as Hempty.
  - rewrite bool_decide_eq_true_2 by done. simpl.
    repeat split. f_equal. f_equal.
    apply map_eq. intros k. unfold m3, m2, m1.
    destruct (decide (k = u)) as [->|];
      [by rewrite lookup_delete_eq, lookup_insert_ne, lookup_delete_eq|].
    rewrite lookup_delete_ne by done.
    destruct (decide (k = dq)) as [->|]; [by rewrite !lookup_insert_eq|].
    by rewrite !lookup_insert_ne, lookup_delete_ne by done.
  - rewrite bool_decide_eq_false_2 by done. simpl.
    repeat split. f_equal. f_equal.
    apply map_eq. intros k. unfold m3, m2, m1.
    destruct (decide (k = dq)) as [->|]; [by rewrite !lookup_insert_eq|].
    rewrite !(lookup_insert_ne _ dq) by done.
    destruct (decide (k = u)) as [->|]; [by rewrite !lookup_insert_eq|].
    by rewrite !lookup_insert_ne by done.
Qed.

(** The tree of a commit, from the entries of the two directories. *)
Lemma PushBlobPut_tree name u dq fi rest B fs mu :
  let session := registry.PathJoinWithBase name [u] in
  let blob := registry.PathJoinWithBase name [dq] in
  filepath.plain u = true → is_Ok (digest.Parse dq) = true → u ≠ dq →
  os.walk (os.components session) fs = Ok (os.Dir mu) →
  os.list_dir (os.Dir mu) = Ok (fi :: rest) →
  filepath.plain (os.Name fi) = true →
  mu !! os.Name fi = Some (os.File B) →
  (∀ data, os.walk (os.components blob) fs ≠ Ok (os.File data)) →
  (∀ k, os.walk (os.components blob ++ [os.Name fi]) fs ≠ Ok (os.Dir k)) →
  let o := PushBlobPut name u dq fs in
  ∃ m mb,
    os.walk (repo name) fs = Ok (os.Dir m)
    ∧ m !! u = Some (os.Dir mu)
    ∧ (∀ c, os.walk (os.components blob ++ [c]) fs
            = match mb !! c with Some n => Ok n | None => Err os.ENOENT end)
    ∧ failure o = None
    ∧ http.wrote (writer o) = Some (http.StatusCreated, ∅)
    ∧ tree o
      = os.put (repo name)
          (os.Dir (<[dq := os.Dir (<[os.Name fi := os.File B]> mb)]>
                     (if decide (rest = []) then delete u m
                      else <[u := os.Dir (delete (os.Name fi) mu)]> m))) fs.
Proof.
  intros session blob Hu Hparse Hne Hs Hlist Hf Hfile Hnofile Hnodir o.
  assert (filepath.plain dq = true) as Hdq.
  { destruct (digest.Parse dq) as [d|] eqn:Hd; [|done].
    by apply Parse_plain in Hd as [_ ?]. }
  unfold session, blob in *. rewrite components_dir in * by done.
  rewrite walk_app in Hs.
  destruct (os.walk (repo name) fs) as [[|m]|] eqn:Hfs; [done| |done].
  simpl in Hs. destruct (m !! u) as [n|] eqn:Hmu; [|done].
  injection Hs as ->.
  pose proof (put_same _ _ _ Hfs) as Hsame.
  assert (∃ mb, default (os.Dir ∅) (m !! dq) = os.Dir mb
                ∧ ∀ c, os.walk ((repo name ++ [dq]) ++ [c]) fs
                       = match mb !! c with Some n => Ok n | None => Err os.ENOENT end)
    as (mb & Hmb & Hentries).
  { specialize (Hnofile). rewrite walk_app, Hfs in Hnofile. simpl in Hnofile.
    destruct (m !! dq) as [[data|mb]|] eqn:Hmdq.
    - by destruct (Hnofile data).
    - exists mb. split; [done|]. intros c.
      rewrite <-app_assoc, walk_app, Hfs. simpl. rewrite Hmdq. simpl.
      by destruct (mb !! c).
    - exists ∅. split; [done|]. intros c.
      rewrite <-app_assoc, walk_app, Hfs. simpl. by rewrite Hmdq, lookup_empty. }
  assert (∀ k, mb !! os.Name fi ≠ Some (os.Dir k)) as Hfree.
  { intros k Hk. apply (Hnodir k). by rewrite Hentries, Hk. }
  destruct (PushBlobPut_below name u dq fi rest B fs (os.Dir m) m mu mb)
    as (Hfail & Hwrote & Htree); try done.
  rewrite Hsame in Hfail, Hwrote, Htree. fold o in Hfail, Hwrote, Htree.
  exists m, mb. repeat (split; [done|]).
  rewrite Htree. do 3 f_equal.
  assert (rest = [] ↔ delete (os.Name fi) mu = ∅) as Hiff.
  { apply list_dir_length in Hlist. simpl in Hlist.
    rewrite <-map_size_empty_iff, map_size_delete, Hfile, <-Hlist. simpl.
    split; [by intros ->|]. by intros ?%length_zero_iff_nil. }
  destruct (decide (rest = [])) as [Hr|Hr],
    (decide (delete (os.Name fi) mu = ∅)) as [Hdl|Hdl]; try done.
  - by apply Hiff in Hr.
  - by apply Hiff in Hdl.
Qed.
End commit.

Section commit_properties.
Implicit Types (name u dq : string) (fs : os.node) (mu : gmap string os.node).

(** X6. What a commit moves. [PUT] takes the first entry of the session
    directory in the order of the names, a file, and puts it under the
    same name into the directory of the digest, over a file of that name
    if there is one; the other entries of that directory stay. The
    session directory is removed only if it held nothing else: with more
    entries it stays, holding the others, and they are not part of the
    blob. *)
Theorem PushBlobPut_commits name u dq fi rest B fs mu :
  let session := registry.PathJoinWithBase name [u] in
  let blob := registry.PathJoinWithBase name [dq] in
  filepath.plain u = true → is_Ok (digest.Parse dq) = true → u ≠ dq →
  os.walk (os.components session) fs = Ok (os.Dir mu) →
  os.list_dir (os.Dir mu) = Ok (fi :: rest) →
  filepath.plain (os.Name fi) = true →
  mu !! os.Name fi = Some (os.File B) →
  (∀ data, os.walk (os.components blob) fs ≠ Ok (os.File data)) →
  (∀ k, os.walk (os.components blob ++ [os.Name fi]) fs ≠ Ok (os.Dir k)) →
  let o := PushBlobPut name u dq fs in
  failure o = None
  ∧ http.StatusCode (Handler o) = 201%Z
  ∧ os.walk (os.components blob ++ [os.Name fi]) (tree o) = Ok (os.File B)
  ∧ (∀ c, c ≠ os.Name fi →
          os.walk (os.components blob ++ [c]) (tree o)
          = os.walk (os.components blob ++ [c]) fs)
  ∧ os.walk (os.components session) (tree o)
    = if decide (rest = []) then Err os.ENOENT
      else Ok (os.Dir (delete (os.Name fi) mu)).
Proof.
  intros session blob Hu Hparse Hne Hs Hlist Hf Hfile Hnofile Hnodir o.
  assert (filepath.plain dq = true) as Hdq.
  { destruct (digest.Parse dq) as [d|] eqn:Hd; [|done].
    by apply Parse_plain in Hd as [_ ?]. }
  destruct (PushBlobPut_tree name u dq fi rest B fs mu)
    as (m & mb & Hfs & Hmu & Hentries & Hfail & Hwrote & Htree); try done.
  fold o in Hfail, Hwrote, Htree. fold blob in Hentries.
  split; [done|]. split; [by rewrite (Handler_done _ _ _ Hfail Hwrote)|].
  unfold session, blob in *. rewrite !components_dir in * by done.
  rewrite Htree, <-!app_assoc. split; [|split].
  - rewrite (walk_in _ _ _ _ _ Hfs). simpl.
    by rewrite lookup_insert_eq; simpl; rewrite lookup_insert_eq.
  - intros c Hc. rewrite Hentries, <-app_assoc, (walk_in _ _ _ _ _ Hfs). simpl.
    rewrite lookup_insert_eq. simpl. rewrite lookup_insert_ne by done.
    by destruct (mb !! c).
  - rewrite (walk_in _ _ _ _ _ Hfs). simpl. rewrite lookup_insert_ne by done.
    case_decide.
    + by rewrite lookup_delete_eq.
    + by rewrite lookup_insert_eq.
Qed.

(** X7. A commit is not repeatable. After a [PUT] that has moved the only
    file of its session, the same [PUT] again fails: the session
    directory is gone, [PickupFileinfo] returns the error of reading it,
    which has no code, and the tree stays as the first [PUT] left it, the
    blob included. *)
Theorem PushBlobPut_again name u dq fi B fs mu :
  let session := registry.PathJoinWithBase name [u] in
  let blob := registry.PathJoinWithBase name [dq] in
  filepath.plain u = true → is_Ok (digest.Parse dq) = true → u ≠ dq →
  os.walk (os.components session) fs = Ok (os.Dir mu) →
  os.list_dir (os.Dir mu) = Ok [fi] →
  filepath.plain (os.Name fi) = true →
  mu !! os.Name fi = Some (os.File B) →
  (∀ data, os.walk (os.components blob) fs ≠ Ok (os.File data)) →
  (∀ k, os.walk (os.components blob ++ [os.Name fi]) fs ≠ Ok (os.Dir k)) →
  let o := PushBlobPut name u dq fs in
  let o' := PushBlobPut name u dq (tree o) in
  failure o = None
  ∧ failure o'
    = Some (errors.plain (errors.PickupError (registry.ReadDirError os.ENOENT)))
  ∧ http.wrote (writer o') = None
  ∧ tree o' = tree o.
Proof.
  intros session blob Hu Hparse Hne Hs Hlist Hf Hfile Hnofile Hnodir o o'.
  destruct (PushBlobPut_tree name u dq fi [] B fs mu)
    as (m & mb & Hfs & Hmu & Hentries & Hfail & Hwrote & Htree); try done.
  fold o in Hfail, Hwrote, Htree. split; [done|].
  rewrite decide_True in Htree by done.
  unfold o'. rewrite Htree. clear o' Htree Hfail Hwrote. clearbody o.
  unfold PushBlobPut.
  destruct (digest.Parse dq) as [d|] eqn:Hd; [|done].
  apply Parse_plain in Hd as [-> Hdq]. unfold digest.String.
  unfold os.MkdirAll, registry.PickupFileinfo, os.ReadDir.
  rewrite !components_dir by done.
  rewrite (mkdir_all_in _ _ _ _ _ Hfs). simpl os.mkdir_all.
  rewrite lookup_insert_eq. simpl.
  rewrite (readdir_in _ _ _ _ _ Hfs). unfold os.readdir. simpl.
  rewrite !lookup_insert_ne, lookup_delete_eq by done. simpl.
  by rewrite !insert_insert_eq.
Qed.
End commit_properties.

Lemma PushBlobPut_commits_witness :
  let fs :=
    os.Dir {[ "testdata" := os.Dir {[ "myorg" := os.Dir {[ "myrepo" :=
      os.Dir {[ uuid1 :=
        os.Dir (<["layer.tar.gz" := os.File gz_bytes]>
                  {["layer.json" := os.File object_bytes]}) ]} ]} ]} ]} in
  let o := PushBlobPut "myorg/myrepo" uuid1 object_digest fs in
  os.walk (os.components (registry.PathJoinWithBase "myorg/myrepo" [object_digest])
             ++ ["layer.json"]) (tree o)
  = Ok (os.File object_bytes)
  ∧ os.walk (os.components (registry.PathJoinWithBase "myorg/myrepo" [uuid1])) (tree o)
    = Ok (os.Dir (delete "layer.json"
                    (<["layer.tar.gz" := os.File gz_bytes]>
                       {["layer.json" := os.File object_bytes]}))).
Proof.
  intros fs o.
  destruct (PushBlobPut_commits "myorg/myrepo" uuid1 object_digest
              (os.info "layer.json" (os.File object_bytes))
              [os.info "layer.tar.gz" (os.File gz_bytes)] object_bytes fs
              (<["layer.tar.gz" := os.File gz_bytes]>
                 {["layer.json" := os.File object_bytes]}))
    as (_ & _ & Hblob & _ & Hsession).
  - vm_compute. reflexivity.
  - vm_compute. reflexivity.
  - vm_compute. discriminate.
  - vm_compute. reflexivity.
  - vm_compute. reflexivity.
  - vm_compute. reflexivity.
  - vm_compute. reflexivity.
  - intros data. vm_compute. discriminate.
  - intros k. vm_compute. discriminate.
  - split; [exact Hblob | exact Hsession].
Defined.

Lemma PushBlobPut_again_witness :
  let fs :=
    os.Dir {[ "testdata" := os.Dir {[ "myorg" := os.Dir {[ "myrepo" :=
      os.Dir {[ uuid1 := os.Dir {["layer.tar.gz" := os.File gz_bytes]} ]} ]} ]} ]} in
  let o := PushBlobPut "myorg/myrepo" uuid1 gz_digest fs in
  failure (PushBlobPut "myorg/myrepo" uuid1 gz_digest (tree o))
  = Some (errors.plain (errors.PickupError (registry.ReadDirError os.ENOENT))).
Proof.
  intros fs o.
  apply (PushBlobPut_again "myorg/myrepo" uuid1 gz_digest
           (os.info "layer.tar.gz" (os.File gz_bytes)) gz_bytes fs
           {["layer.tar.gz" := os.File gz_bytes]}).
  - vm_compute. reflexivity.
  - vm_compute. reflexivity.
  - vm_compute. discriminate.
  - vm_compute. reflexivity.
  - vm_compute. reflexivity.
  - vm_compute. reflexivity.
  - vm_compute. reflexivity.
  - intros data. vm_compute. discriminate.
  - intros k. vm_compute. discriminate.
Defined.

(** ** The two tests for a JSON file *)
Section json_file.

Lemma rev_app_append s t u : String.rev_app s (t ++ u) = String.rev_app s t ++ u.
Proof.
  revert t. induction s as [|a s IH]; intros t; simpl; [done|].
  by rewrite <-IH, append_cons.
Qed.

Lemma rev_app_rev s t : String.rev_app s t = String.rev s ++ t.
Proof. unfold String.rev. by rewrite <-rev_app_append. Qed.

Lemma rev_app_of_append s t acc :
  String.rev_app (s ++ t) acc = String.rev_app t (String.rev_app s acc).
Proof.
  revert acc. induction s as [|a s IH]; intros acc; [done|].
  rewrite append_cons. simpl. by rewrite IH.
Qed.

Lemma rev_append s t : String.rev (s ++ t) = String.rev t ++ String.rev s.
Proof. unfold String.rev at 1. by rewrite rev_app_of_append, rev_app_rev. Qed.

Lemma rev_rev s : String.rev (String.rev s) = s.
Proof.
  induction s as [|a s IH]; [done|].
  unfold String.rev at 2. simpl. by rewrite rev_app_rev, rev_append, IH.
Qed.

Lemma HasPrefix_append p s : Str.HasPrefix (p ++ s) p = true.
Proof.
  induction p as [|a p IH]; [by destruct s|].
  rewrite append_cons. simpl. by rewrite decide_True.
Qed.

Lemma HasPrefix_inv s p : Str.HasPrefix s p = true → ∃ x, s = p ++ x.
Proof.
  revert s. induction p as [|a p IH]; intros s; [by exists s|].
  destruct s as [|b s]; simpl; [done|].
  case_decide as Hab; [|done]. subst b.
  intros [x ->]%IH. by exists x.
Qed.

Lemma HasSuffix_spec s suf : Str.HasSuffix s suf = true ↔ ∃ pre, s = pre ++ suf.
Proof.
  unfold Str.HasSuffix. split.
  - intros [x Hx]%HasPrefix_inv. exists (String.rev x).
    by rewrite <-(rev_rev s), Hx, rev_append, rev_rev.
  - intros [pre ->]. rewrite rev_append. apply HasPrefix_append.
Qed.

Lemma Ext_cons a s :
  filepath.Ext (String a s)
  = if bool_decide (filepath.Ext s = "") then
      if Str.contains filepath.Separator s then ""
      else if decide (a = "."%char) then String a s else ""
    else filepath.Ext s.
Proof. done. Qed.

Lemma Ext_json s : filepath.Ext s = ".json" ↔ ∃ pre, s = pre ++ ".json".
Proof.
  split.
  - induction s as [|a s IH]; [done|]. rewrite Ext_cons.
    case_bool_decide as He.
    + destruct (Str.contains filepath.Separator s); [done|].
      case_decide; [|done]. intros ->. by exists "".
    + intros [pre ->]%IH. by exists (String a pre).
  - intros [pre ->]. induction pre as [|a pre IH]; [done|].
    rewrite append_cons, Ext_cons, IH. done.
Qed.

Lemma HasSuffix_Ext f :
  Str.HasSuffix f ".json" = bool_decide (filepath.Ext f = ".json").
Proof.
  apply eq_true_iff_eq. by rewrite HasSuffix_spec, bool_decide_eq_true, Ext_json.
Qed.

(** X8. [PullingBlobs] tests the name of the file with
    [strings.HasSuffix], [PushBlobHead] and [PredictDockerContentType]
    test its extension with [filepath.Ext]: the two tests agree on every
    name. So when [GET] of a blob succeeds, [HEAD] of it succeeds too,
    and [GET] sends the headers of the API exactly when [HEAD] reports
    the manifest type. *)
Theorem json_tests_agree :
  (∀ f, Str.HasSuffix f ".json" = bool_decide (filepath.Ext f = ".json"))
  ∧ (∀ name dq fs,
       let get := PullingBlobs name dq fs in
       let head := PushBlobHead name dq fs in
       failure get = None →
       failure head = None
       ∧ (http.Get "Docker-Distribution-Api-Version" (http.Headers (Handler get))
          = Some "registry/2.0"
          ↔ http.Get "Content-Type" (http.Headers (Handler head))
            = Some "application/vnd.docker.distribution.manifest.v2+json")).
Proof.
  split; [apply HasSuffix_Ext|].
  intros name dq fs. cbv zeta. unfold PullingBlobs, PushBlobHead.
  destruct (digest.Parse dq) as [d|]; [|done].
  destruct (os.IsNotExist _); [done|].
  destruct (registry.PickupFileinfo _ fs) as [fi|]; [|done].
  destruct (os.Open _ fs); [|done]. intros _. split; [done|].
  rewrite HasSuffix_Ext. unfold Handler, http.finish. simpl.
  case_bool_decide; simpl.
  - split; intros _.
    + rewrite ?Get_Set_ne by (vm_compute; discriminate). by rewrite Get_Set_eq.
    + rewrite ?Get_Set_ne by (vm_compute; discriminate). by rewrite Get_Set_eq.
  - split; intros Hx; exfalso; revert Hx.
    + rewrite ?Get_Set_ne by (vm_compute; discriminate). by vm_compute.
    + rewrite ?Get_Set_ne by (vm_compute; discriminate).
      by rewrite Get_Set_eq.
Qed.
End json_file.

Lemma json_tests_agree_witness :
  http.Get "Content-Type"
    (http.Headers (Handler (PushBlobHead "myorg/myrepo" object_digest
                              (store_with object_digest "layer.json" object_bytes))))
  = Some "application/vnd.docker.distribution.manifest.v2+json".
Proof.
  apply (proj2 json_tests_agree "myorg/myrepo" object_digest
           (store_with object_digest "layer.json" object_bytes)).
  - vm_compute. reflexivity.
  - vm_compute. reflexivity.
Defined.

(** ** Lookups of what is not stored *)
Section lookups.
Implicit Types (name dq tag : string) (fs : os.node).

(** X9. The blob that is not there. With a digest that parses, [GET] of
    a blob whose directory is missing returns the error of [os.Stat]
    with the code of an unknown blob, and [HEAD] returns it with the
    status 404 and no code. A directory that exists and is empty, as a
    commit that failed leaves it, is no unknown blob for either: both
    return the error of [PickupFileinfo], which has neither code nor
    status; so they do when a file stands where the directory is
    looked for. No case writes a header or a status. *)
Theorem blob_lookup_failures name dq fs :
  is_Ok (digest.Parse dq) = true →
  let dir := registry.PathJoinWithBase name [dq] in
  let get := PullingBlobs name dq fs in
  let head := PushBlobHead name dq fs in
  (os.walk (os.components dir) fs = Err os.ENOENT →
     failure get
     = Some (errors.Wrap (errors.PathError os.ENOENT) [errors.WithCodeBlobUnknown])
     ∧ failure head
       = Some (errors.Wrap (errors.PathError os.ENOENT)
                 [errors.WithStatusCode http.StatusNotFound]))
  ∧ (os.walk (os.components dir) fs = Ok (os.Dir ∅) →
     failure get = Some (errors.plain (errors.PickupError (registry.NoFileIn dir)))
     ∧ failure head = failure get)
  ∧ (∀ e, (os.walk (os.components dir) fs = Err e ∧ e ≠ os.ENOENT)
          ∨ ((∃ data, os.walk (os.components dir) fs = Ok (os.File data))
             ∧ e = os.ENOTDIR) →
     failure get
     = Some (errors.plain (errors.PickupError (registry.ReadDirError e)))
     ∧ failure head = failure get)
  ∧ (is_Ok (registry.PickupFileinfo dir fs) = false →
     writer get = http.fresh ∧ writer head = http.fresh).
Proof.
  intros Hparse dir get head. unfold get, head, PullingBlobs, PushBlobHead.
  destruct (digest.Parse dq) as [d|] eqn:Hd; [|done].
  apply Parse_plain in Hd as [-> Hdq]. unfold digest.String. fold dir.
  unfold os.Stat, registry.PickupFileinfo, os.ReadDir, os.readdir.
  rewrite IsNotExist_stat.
  split; [|split; [|split]].
  - by intros ->.
  - intros ->. simpl. unfold os.list_dir.
    by rewrite map_to_list_empty.
  - intros e [[-> He]|[[data ->] ->]]; simpl; [|done].
    by destruct e.
  - destruct (os.walk (os.components dir) fs) as [n|e]; simpl.
    + destruct (os.list_dir n) as [[|fi fis]|]; simpl; done.
    + by destruct e.
Qed.
End lookups.

Lemma blob_lookup_failures_witness :
  failure (PushBlobHead "myorg/myrepo" gz_digest empty_store)
  = Some (errors.Wrap (errors.PathError os.ENOENT)
            [errors.WithStatusCode http.StatusNotFound]).
Proof.
  apply (blob_lookup_failures "myorg/myrepo" gz_digest empty_store).
  - vm_compute. reflexivity.
  - vm_compute. reflexivity.
Defined.

(** ** Manifests put twice, and manifests that cannot be put *)
Section manifest_store.
Context `{Libraries}.
Implicit Types (name tag : string) (body : io.Reader) (fs : os.node).

Lemma mkdir_all_file p fs data :
  os.walk p fs = Ok (os.File data) → os.mkdir_all p fs = Err os.ENOTDIR.
Proof.
  revert fs. induction p as [|c p IH]; intros fs; simpl.
  - by intros [= ->].
  - destruct fs as [|m]; [done|]. destruct (m !! c) as [n|]; [|done].
    simpl. intros Hn. by rewrite (IH _ Hn).
Qed.

(** What [PushManifestPut] does once the body is decoded, by what is at
    the path of the tag. *)
Lemma PushManifestPut_decoded name tag body fs m :
  (io.ReadAll body).2 = io.nil → json_Decode (io.bytes_of body) = Some m →
  let dir := os.components (registry.PathJoinWithBase name [tag]) in
  let o := PushManifestPut name tag body fs in
  (∀ data, os.walk dir fs = Ok (os.File data) →
     failure o
     = Some (errors.Wrap (errors.PathError os.ENOTDIR) [errors.WithCodeTagInvalid])
     ∧ tree o = fs)
  ∧ (∀ md, os.walk dir fs = Ok (os.Dir md) →
     (∀ k, md !! "manifest.json" ≠ Some (os.Dir k)) →
     failure o = None
     ∧ tree o = os.put dir (os.Dir (<["manifest.json" := os.File (json_Encode m)]> md)) fs).
Proof.
  intros Hend Hdec dir o. unfold o, PushManifestPut.
  unfold io.bytes_of in Hdec. destruct (io.ReadAll body) as [bytes st].
  simpl in Hend, Hdec. subst st. rewrite Hdec.
  unfold os.MkdirAll, os.Create, os.append.
  rewrite components_Join_file by done. fold dir.
  unfold os.create. rewrite parent_and_name_snoc.
  set (g := os.in_dir _).
  assert (∀ x, os.walk dir fs = Ok x →
               os.update dir g fs = x' ← g x; Ok (os.put dir x' fs)) as Hupd.
  { intros x Hx. rewrite <-(app_nil_r dir) at 1.
    by rewrite (update_focus _ _ _ _ _ Hx). }
  split.
  - intros data Hfile. rewrite (mkdir_all_file _ _ _ Hfile). simpl.
    by rewrite (Hupd _ Hfile).
  - intros md Hdir Hfree. rewrite (mkdir_all_existing _ _ _ Hdir). simpl.
    rewrite (Hupd _ Hdir). unfold g. simpl.
    assert (match md !! "manifest.json" with
            | Some (os.Dir _) => Err os.EISDIR
            | _ => Ok (<["manifest.json" := os.File []]> md)
            end = Ok (<["manifest.json" := os.File []]> md)) as ->.
    { destruct (md !! "manifest.json") as [[|k]|] eqn:E; [done| |done].
      by destruct (Hfree k). }
    simpl. rewrite (write_in _ _ _ _ _ _ Hdir). unfold os.write. simpl.
    rewrite lookup_insert_eq. simpl. by rewrite insert_insert_eq.
Qed.

(** X10. The manifest of a tag is the one of the last [PUT]. After a
    [PUT] of a manifest that succeeded, a second [PUT] under the same
    name and tag, with a body that decodes, succeeds as well and writes
    over the file: [GET] then answers 200 with the encoding of the
    second manifest, and nothing of the first one is kept. *)
Theorem PushManifestPut_replaces name tag body1 body2 fs m2 :
  let o1 := PushManifestPut name tag body1 fs in
  let o2 := PushManifestPut name tag body2 (tree o1) in
  failure o1 = None →
  (io.ReadAll body2).2 = io.nil → json_Decode (io.bytes_of body2) = Some m2 →
  failure o2 = None
  ∧ http.StatusCode (Handler (PullingManifests name tag (tree o2))) = 200%Z
  ∧ http.Body (Handler (PullingManifests name tag (tree o2))) = json_Encode m2.
Proof.
  intros o1 o2 Hf1 Hend2 Hdec2.
  set (dir := os.components (registry.PathJoinWithBase name [tag])).
  (* the file of the first [PUT] *)
  assert (∃ md old, os.walk dir (tree o1) = Ok (os.Dir md)
                    ∧ md !! "manifest.json" = Some (os.File old))
    as (md & old & Hdir & Hold).
  { revert Hf1. unfold o1, PushManifestPut.
    destruct (match io.ReadAll body1 with
              | (bytes, io.nil) => json_Decode bytes
              | _ => None
              end) as [m1|]; [|done].
    unfold os.Create. rewrite components_Join_file by done. fold dir.
    destruct (os.create _ _) as [fs1|] eqn:Hc; [|done]. intros _.
    destruct (create_write _ _ (json_Encode m1) _ _ Hc) as (fs2 & Hw & Hwalk).
    assert (os.append
              (filepath.Join [registry.PathJoinWithBase name [tag]; "manifest.json"])
              (json_Encode m1) fs1 = fs2) as Happ.
    { unfold os.append. rewrite components_Join_file by done. fold dir.
      by rewrite Hw. }
    simpl tree. rewrite Happ.
    rewrite walk_app in Hwalk.
    destruct (os.walk dir fs2) as [[|md]|]; [done| |done].
    simpl in Hwalk. exists md, (json_Encode m1). split; [done|].
    by destruct (md !! "manifest.json"); simplify_eq. }
  destruct (PushManifestPut_decoded name tag body2 (tree o1) m2 Hend2 Hdec2)
    as [_ Hput].
  destruct (Hput md Hdir) as [Hf2 Ht2]; [by rewrite Hold|].
  fold o2 in Hf2, Ht2. split; [done|].
  unfold PullingManifests, os.Stat, os.Open.
  rewrite IsNotExist_stat, components_manifest, components_Join_file by done.
  fold dir. rewrite Ht2, (walk_in _ _ _ _ _ Hdir). simpl.
  by rewrite lookup_insert_eq.
Qed.

(** X11. Manifests that are not stored. [GET] of a manifest whose file
    is missing returns the error of [os.Stat] with the code of an
    unknown manifest. A [PUT] whose body breaks off or does not decode
    returns the code of an invalid manifest before anything is made. A
    [PUT] whose body decodes, under a tag whose path is a file, returns
    the error of [os.Create] with the code of an invalid tag. The tree
    is the same after each. *)
Theorem manifest_failures name tag body fs :
  (os.walk (os.components (registry.PathJoinWithBase name [tag; "manifest.json"])) fs
   = Err os.ENOENT →
   failure (PullingManifests name tag fs)
   = Some (errors.Wrap (errors.PathError os.ENOENT) [errors.WithCodeManifestUnknown]))
  ∧ ((io.ReadAll body).2 ≠ io.nil ∨ json_Decode (io.bytes_of body) = None →
     failure (PushManifestPut name tag body fs)
     = Some (errors.Wrap errors.SyntaxError [errors.WithCodeManifestInvalid])
     ∧ tree (PushManifestPut name tag body fs) = fs)
  ∧ (∀ data, (io.ReadAll body).2 = io.nil →
       is_Some (json_Decode (io.bytes_of body)) →
       os.walk (os.components (registry.PathJoinWithBase name [tag])) fs
       = Ok (os.File data) →
       failure (PushManifestPut name tag body fs)
       = Some (errors.Wrap (errors.PathError os.ENOTDIR) [errors.WithCodeTagInvalid])
       ∧ tree (PushManifestPut name tag body fs) = fs).
Proof.
  split; [|split].
  - intros Hw. unfold PullingManifests, os.Stat. by rewrite IsNotExist_stat, Hw.
  - unfold PushManifestPut, io.bytes_of.
    destruct (io.ReadAll body) as [bytes st]. simpl.
    intros [Hst| ->]; by destruct st.
  - intros data Hend [m Hdec] Hfile.
    by destruct (PushManifestPut_decoded name tag body fs m Hend Hdec) as [Hf _];
      apply (Hf data).
Qed.
End manifest_store.

Lemma PushManifestPut_replaces_witness :
  let o1 := PushManifestPut (H := sample) "myorg/myrepo" "latest"
              [io.Data (Str.to_bytes gz_digest)] empty_store in
  let o2 := PushManifestPut (H := sample) "myorg/myrepo" "latest"
              [io.Data (Str.to_bytes object_digest)] (tree o1) in
  http.Body (Handler (PullingManifests "myorg/myrepo" "latest" (tree o2)))
  = Str.to_bytes object_digest.
Proof.
  intros o1 o2.
  apply (PushManifestPut_replaces (H := sample) "myorg/myrepo" "latest"
           [io.Data (Str.to_bytes gz_digest)] [io.Data (Str.to_bytes object_digest)]
           empty_store (digest_only object_digest)).
  - vm_compute. reflexivity.
  - vm_compute. reflexivity.
  - vm_compute. reflexivity.
Defined.

Lemma manifest_failures_witness :
  failure (PushManifestPut (H := sample) "myorg/myrepo" "latest"
             [io.Data object_bytes; io.Broken] empty_store)
  = Some (errors.Wrap errors.SyntaxError [errors.WithCodeManifestInvalid])
  ∧ failure (PushManifestPut (H := sample) "myorg/myrepo" "layer.json"
               [io.Data object_bytes] (store_with "layer.json" "x" []))
    = None.
Proof.
  split; [|vm_compute; reflexivity].
  apply (proj1 (proj2 (manifest_failures (H := sample) "myorg/myrepo" "latest"
                         [io.Data object_bytes; io.Broken] empty_store))).
  left. vm_compute. discriminate.
Defined.

(** ** Paths below the base *)
Section below_base.
Implicit Types (name : string) (p : list string).

(** X12. Where [PathJoinWithBase] leads. When the elements of the name
    and the further elements name entries, the path resolves to the
    base directory, then the elements of the name, then the further
    elements, and nothing else: a push under such names stays below
    [BasePath]. The join is lexical and refuses nothing: a further
    element [..] takes the element before it away, so that
    [PathJoinWithBase name [".."]] is the directory above the one of the
    repository. *)
Theorem PathJoinWithBase_below_base name p :
  Forall (λ c, filepath.plain c = true) (Str.split "/"%char name) →
  Forall (λ c, filepath.plain c = true) p →
  os.components (registry.PathJoinWithBase name p)
  = (registry.BasePath :: Str.split "/"%char name ++ p)%list
  ∧ os.components (registry.PathJoinWithBase name (p ++ [".."]))
    = removelast (registry.BasePath :: Str.split "/"%char name ++ p)%list.
Proof.
  intros Hname Hp.
  assert (Forall (λ c, filepath.plain c = true)
            (registry.BasePath :: Str.split "/"%char name ++ p)%list) as Hall.
  { apply Forall_cons. split; [done|]. by apply Forall_app. }
  assert (∀ q, ([registry.BasePath; name] ++ p ++ q)%list ≫= Str.split "/"%char
               = ((registry.BasePath :: Str.split "/"%char name ++ p)
                    ++ (q ≫= Str.split "/"%char))%list) as Hbind.
  { intros q.
    change ([registry.BasePath; name] ++ p ++ q)%list
      with (registry.BasePath :: name :: (p ++ q))%list.
    rewrite !bind_cons, bind_app, (bind_split_id p).
    - change (Str.split "/"%char registry.BasePath) with [registry.BasePath].
      simpl. by rewrite <-app_assoc.
    - eapply Forall_impl; [exact Hp|]. intros c. apply plain_no_sep. }
  unfold registry.PathJoinWithBase. split.
  - rewrite components_Join. specialize (Hbind []).
    rewrite !app_nil_r in Hbind. rewrite Hbind.
    unfold filepath.normal. rewrite foldl_clean_plain by done.
    by rewrite app_nil_r, reverse_involutive.
  - rewrite app_assoc, components_Join, <-app_assoc, Hbind.
    set (cs := (registry.BasePath :: Str.split "/"%char name ++ p)%list) in *.
    clearbody cs. clear Hbind.
    unfold filepath.normal. rewrite foldl_app, (foldl_clean_plain _ _ _ Hall).
    rewrite app_nil_r.
    change (foldl (filepath.clean_step true) (reverse cs)
              ([".."] ≫= Str.split "/"%char))
      with (filepath.clean_step true (reverse cs) "..").
    destruct cs as [|c cs _] using rev_ind; [done|].
    rewrite reverse_snoc, removelast_last.
    apply Forall_app in Hall as [_ [Hc _]%Forall_cons].
    unfold filepath.clean_step. simpl.
    rewrite bool_decide_eq_false_2 by (by intros ->).
    by rewrite reverse_involutive.
Qed.
End below_base.

Lemma PathJoinWithBase_below_base_witness :
  os.components (registry.PathJoinWithBase "myorg/myrepo" [uuid1])
  = ["testdata"; "myorg"; "myrepo"; uuid1]
  ∧ os.components (registry.PathJoinWithBase "myrepo" [".."]) = ["testdata"].
Proof.
  split.
  - apply (PathJoinWithBase_below_base "myorg/myrepo" [uuid1]).
    + vm_compute. repeat constructor.
    + vm_compute. repeat constructor.
  - apply (PathJoinWithBase_below_base "myrepo" []).
    + vm_compute. repeat constructor.
    + constructor.
Defined.

(** ** What a write leaves alone *)
Section frame.
Context `{Libraries}.
Implicit Types (R q : list string) (n : os.node) (fs : os.node).

Lemma update_diverge R a b q1 q2 g n n' :
  a ≠ b → os.update (R ++ a :: q1) g n = Ok n' →
  os.walk (R ++ b :: q2) n' = os.walk (R ++ b :: q2) n.
Proof.
  intros Hab. revert n n'. induction R as [|c R IH]; intros n n'; simpl.
  - destruct n as [|m]; [done|]. destruct (m !! a) as [x|]; [|done].
    destruct (os.update q1 g x) as [x'|]; [|done]. intros [= <-].
    by rewrite lookup_insert_ne.
  - destruct n as [|m]; [done|]. destruct (m !! c) as [x|] eqn:Hc; [|done].
    destruct (os.update _ g x) as [x'|] eqn:Hx; [|done]. intros [= <-].
    rewrite lookup_insert_eq. by apply IH.
Qed.

Lemma mkdir_all_diverge R a b q1 q2 n n1 :
  a ≠ b → os.mkdir_all (R ++ a :: q1) n = Ok n1 →
  os.walk (R ++ b :: q2) n1 = os.walk (R ++ b :: q2) n.
Proof.
  intros Hab. revert n n1. induction R as [|c R IH]; intros n n1; simpl.
  - destruct n as [|m]; [done|].
    destruct (os.mkdir_all q1 _) as [x'|]; [|done]. intros [= <-].
    by rewrite lookup_insert_ne.
  - destruct n as [|m]; [done|].
    destruct (os.mkdir_all _ (default (os.Dir ∅) (m !! c))) as [x'|] eqn:Hx; [|done].
    intros [= <-]. rewrite lookup_insert_eq, (IH _ _ Hx).
    destruct (m !! c); [done|]. apply walk_empty_dir. by destruct R.
Qed.

Lemma create_diverge R a b q1 q2 l fs fs1 :
  a ≠ b → os.create ((R ++ a :: q1) ++ [l]) fs = Ok fs1 →
  os.walk (R ++ b :: q2) fs1 = os.walk (R ++ b :: q2) fs.
Proof.
  unfold os.create. rewrite parent_and_name_snoc. apply update_diverge.
Qed.

Lemma append_diverge R a b q1 q2 path data fs :
  a ≠ b → os.components path = (R ++ a :: q1)%list →
  os.walk (R ++ b :: q2) (os.append path data fs) = os.walk (R ++ b :: q2) fs.
Proof.
  intros Hab Hpath. unfold os.append, os.write. rewrite Hpath.
  destruct (os.update _ _ fs) as [fs'|] eqn:Hw; [|done].
  by eapply update_diverge.
Qed.

(** X13. A write stays in its directory. [PATCH] of a session and [PUT]
    of a manifest change nothing outside the directory of the session
    or the tag: at every path that leaves the path of that directory at
    some element, the tree holds after the request what it held before,
    whether the request succeeds or fails. Other sessions, blobs, tags
    and repositories are as they were. *)
Theorem writes_stay_in_their_directory name s body fs R a b q1 q2 :
  os.components (registry.PathJoinWithBase name [s]) = (R ++ a :: q1)%list →
  a ≠ b →
  os.walk (R ++ b :: q2) (tree (PushBlobPatch name s body fs))
  = os.walk (R ++ b :: q2) fs
  ∧ os.walk (R ++ b :: q2) (tree (PushManifestPut name s body fs))
    = os.walk (R ++ b :: q2) fs.
Proof.
  intros Hdir Hab.
  assert (∀ l, filepath.plain l = true →
               os.components (filepath.Join [registry.PathJoinWithBase name [s]; l])
               = ((R ++ a :: q1) ++ [l])%list) as Hfile.
  { intros l Hl. by rewrite components_Join_file, Hdir. }
  assert (∀ l data fs1, filepath.plain l = true →
            os.walk (R ++ b :: q2)
              (os.append (filepath.Join [registry.PathJoinWithBase name [s]; l])
                 data fs1)
            = os.walk (R ++ b :: q2) fs1) as Happ.
  { intros l data fs1 Hl. apply (append_diverge R a b (q1 ++ [l]) q2); [done|].
    by rewrite Hfile, <-app_assoc. }
  assert (os.walk (R ++ b :: q2)
            (ignoring (os.MkdirAll (registry.PathJoinWithBase name [s]) fs) fs)
          = os.walk (R ++ b :: q2) fs) as Hmk.
  { unfold os.MkdirAll. rewrite Hdir.
    destruct (os.mkdir_all _ fs) as [fs1|] eqn:E; [|done].
    by eapply mkdir_all_diverge. }
  split.
  - unfold PushBlobPatch.
    set (fs' := ignoring _ fs) in *.
    assert (os.walk (R ++ b :: q2)
              (registry.CreateLayer body (registry.PathJoinWithBase name [s]) fs').1.1
            = os.walk (R ++ b :: q2) fs') as Hc.
    { unfold registry.CreateLayer.
      destruct (io.Read registry.buffer_size body) as [[got st] r'].
      set (l := "layer" ++ registry.detectExt _).
      specialize (Hfile l (layer_plain _)).
      assert (∀ fs1, os.Create
                       (filepath.Join [registry.PathJoinWithBase name [s]; l]) fs'
                     = Ok fs1 →
                     os.walk (R ++ b :: q2) fs1 = os.walk (R ++ b :: q2) fs') as Hcr.
      { unfold os.Create. rewrite Hfile. intros fs1.
        by apply create_diverge. }
      destruct st; [| |done].
      all: destruct (os.Create _ fs') as [fs1|] eqn:Hcreate; [|done].
      all: destruct (io.ReadAll r') as [rest st']; simpl.
      all: rewrite Happ by apply layer_plain.
      all: by apply Hcr. }
    rewrite <-Hmk, <-Hc.
    by destruct (registry.CreateLayer _ _ fs') as [[fs1 n] [[e|e]|]].
  - unfold PushManifestPut.
    destruct (match io.ReadAll body with
              | (bytes, io.nil) => json_Decode bytes
              | _ => None
              end) as [m|]; [|done].
    set (fs' := ignoring _ fs) in *. specialize (Hfile "manifest.json" eq_refl).
    destruct (os.Create _ fs') as [fs1|] eqn:Hcreate; [|done].
    simpl. rewrite Happ by done.
    rewrite <-Hmk. unfold os.Create in Hcreate. rewrite Hfile in Hcreate.
    by eapply create_diverge.
Qed.
End frame.

Lemma writes_stay_in_their_directory_witness :
  os.walk ["testdata"; "myorg"; "myrepo"; gz_digest; "layer.tar.gz"]
    (tree (PushBlobPatch (H := sample) "myorg/myrepo" uuid1 [io.Data object_bytes]
             (store_with gz_digest "layer.tar.gz" gz_bytes)))
  = os.walk ["testdata"; "myorg"; "myrepo"; gz_digest; "layer.tar.gz"]
      (store_with gz_digest "layer.tar.gz" gz_bytes).
Proof.
  apply (writes_stay_in_their_directory (H := sample) "myorg/myrepo" uuid1
           [io.Data object_bytes] (store_with gz_digest "layer.tar.gz" gz_bytes)
           ["testdata"; "myorg"; "myrepo"] uuid1 gz_digest [] ["layer.tar.gz"]).
  - vm_compute. reflexivity.
  - vm_compute. discriminate.
Defined.
